(** * Outbound webhook delivery engine: subscription registry, dispatcher,
      retry policy, delivery worker and delivery log.

    Shallow embedding of
      - src/core/webhook/webhook.service.ts   (registry, dispatcher, log query)
      - src/core/webhook/webhook.schema.ts    (zod schemas of the routes)
      - src/infra/queue/queues.ts             (webhook queue and its options)
      - the queue workers file next to it     (webhook worker and its events)
      - src/api/v1/webhook.routes.ts          (the PATCH handler)
      - src/shared/errors.ts                  (error classes)

    Conventions.  A JavaScript string is a [string]: a sequence of 8-bit
    characters, which is also the byte sequence node hashes and sends.
    Numbers that the code handles (status codes, millisecond clocks, attempt
    counters) are integers and live in [Z].  The relational store reached
    through prisma is explicit state: a table with a primary key is a [gmap]
    from the key column to the remaining columns, the append-only delivery
    table is the list of its rows in insertion order. *)

From Stdlib Require Import ZArith List Ascii Lia.
From stdpp Require Import base option list sorting gmap strings.

Import ListNotations.
Local Open Scope Z_scope.

(** ** Primitives of the JavaScript runtime used by the webhook code *)

Module Js.

(** [Number.prototype.toString] / template interpolation of an integer
    number: decimal digits, with a leading minus sign below zero.  (Only
    integers of ordinary size are ever printed by the code: status codes,
    plan limits and [Date.now()].) *)
Definition digit_char (d : Z) : ascii :=
  ascii_of_N (Z.to_N (48 + d)).

Fixpoint digits_fuel (fuel : nat) (n : Z) (acc : string) : string :=
  match fuel with
  | O => acc
  | S fuel' =>
      let acc' := String (digit_char (n mod 10)) acc in
      if n / 10 =? 0 then acc' else digits_fuel fuel' (n / 10) acc'
  end.

Definition Number_toString (n : Z) : string :=
  if n <? 0
  then String "-"%char (digits_fuel (S (Z.to_nat (Z.log2 (- n)))) (- n) EmptyString)
  else digits_fuel (S (Z.to_nat (Z.log2 n))) n EmptyString.

(** [s.slice(0, n)]: the first [n] characters of [s], all of [s] when it is
    shorter. *)
Fixpoint slice0 (n : nat) (s : string) : string :=
  match n, s with
  | O, _ => EmptyString
  | S _, EmptyString => EmptyString
  | S n', String c s' => String c (slice0 n' s')
  end.
Global Arguments slice0 : simpl never.

(** [Buffer.prototype.toString('hex')]: two lower-case hexadecimal digits
    per byte, most significant nibble first. *)
Definition hex_digit (d : Z) : ascii :=
  if d <? 10 then ascii_of_N (Z.to_N (48 + d)) else ascii_of_N (Z.to_N (87 + d)).

Definition is_hex_digit (c : ascii) : bool :=
  let n := Z.of_N (N_of_ascii c) in
  ((48 <=? n) && (n <=? 57)) || ((97 <=? n) && (n <=? 102)).

Fixpoint toString_hex (bs : list Z) : string :=
  match bs with
  | [] => EmptyString
  | b :: bs' =>
      String (hex_digit ((b / 16) mod 16))
        (String (hex_digit (b mod 16)) (toString_hex bs'))
  end.

(** The bytes of a string (what [Buffer.from(s)] holds). *)
Fixpoint bytes_of_string (s : string) : list Z :=
  match s with
  | EmptyString => []
  | String c s' => Z.of_N (N_of_ascii c) :: bytes_of_string s'
  end.

Fixpoint string_forallb (p : ascii -> bool) (s : string) : bool :=
  match s with
  | EmptyString => true
  | String c s' => p c && string_forallb p s'
  end.

End Js.

(** ** node:crypto: SHA-256 (FIPS 180-4) and HMAC (RFC 2104)

    The worker calls [crypto.createHmac('sha256', secret).update(m).digest('hex')].
    The primitive is given here by its reference definition on byte lists, so
    that signatures can be computed and compared with published vectors. *)

Module Sha256.

Definition mask32 : Z := 0xffffffff.
Definition wrap32 (x : Z) : Z := Z.land x mask32.
Definition add32 (x y : Z) : Z := wrap32 (x + y).
Definition not32 (x : Z) : Z := Z.lxor x mask32.
Definition rotr (n x : Z) : Z :=
  Z.lor (Z.shiftr x n) (wrap32 (Z.shiftl x (32 - n))).

Definition Ch (x y z : Z) : Z := Z.lxor (Z.land x y) (Z.land (not32 x) z).
Definition Maj (x y z : Z) : Z :=
  Z.lxor (Z.lxor (Z.land x y) (Z.land x z)) (Z.land y z).
Definition Sigma0 (x : Z) : Z := Z.lxor (Z.lxor (rotr 2 x) (rotr 13 x)) (rotr 22 x).
Definition Sigma1 (x : Z) : Z := Z.lxor (Z.lxor (rotr 6 x) (rotr 11 x)) (rotr 25 x).
Definition sigma0 (x : Z) : Z := Z.lxor (Z.lxor (rotr 7 x) (rotr 18 x)) (Z.shiftr x 3).
Definition sigma1 (x : Z) : Z := Z.lxor (Z.lxor (rotr 17 x) (rotr 19 x)) (Z.shiftr x 10).

(** The constants are fractional parts of roots of the first primes, 32 bits
    each: cube roots of the first 64 primes for [K], square roots of the
    first 8 for [H0]. *)
Definition is_prime (n : Z) : bool :=
  forallb (fun d => negb (n mod d =? 0)) (map Z.of_nat (seq 2 (Z.to_nat (Z.sqrt n) - 1))).

Definition first_primes (count : nat) : list Z :=
  firstn count (List.filter is_prime (map Z.of_nat (seq 2 400))).

(** The largest [r] with [r ^ k <= n], found bit by bit from [2 ^ bits] down. *)
Fixpoint floor_root (k : Z) (bits : nat) (n r : Z) : Z :=
  match bits with
  | O => r
  | S bits' =>
      let r' := r + 2 ^ Z.of_nat bits' in
      floor_root k bits' n (if r' ^ k <=? n then r' else r)
  end.

Definition root_fraction (k p : Z) : Z :=
  wrap32 (floor_root k 40 (p * 2 ^ (32 * k)) 0).

Definition K : list Z :=
  Eval vm_compute in map (root_fraction 3) (first_primes 64).

Definition H0 : list Z :=
  Eval vm_compute in map (root_fraction 2) (first_primes 8).

(** Big-endian packing. *)
Fixpoint be_bytes (n : nat) (x : Z) : list Z :=
  match n with
  | O => []
  | S n' => Z.land (Z.shiftr x (8 * Z.of_nat n')) 0xff :: be_bytes n' x
  end.

Fixpoint be_words (bs : list Z) : list Z :=
  match bs with
  | b0 :: b1 :: b2 :: b3 :: rest =>
      (((b0 * 256 + b1) * 256 + b2) * 256 + b3) :: be_words rest
  | _ => []
  end.

(** Padding: a 1 bit, zeros up to 56 mod 64, then the bit length on 8 bytes. *)
Definition pad (msg : list Z) : list Z :=
  let len := Z.of_nat (length msg) in
  let zeros := Z.to_nat ((55 - len) mod 64) in
  msg ++ 0x80 :: repeat 0 zeros ++ be_bytes 8 (8 * len).

(** Message schedule: [win] holds the last sixteen words, oldest first. *)
Fixpoint schedule (n : nat) (win : list Z) : list Z :=
  match n with
  | O => []
  | S n' =>
      let w := add32 (add32 (sigma1 (nth 14 win 0)) (nth 9 win 0))
                     (add32 (sigma0 (nth 1 win 0)) (nth 0 win 0)) in
      w :: schedule n' (tl win ++ [w])
  end.

Record regs := Regs { ra : Z; rb : Z; rc : Z; rd : Z; re : Z; rf : Z; rg : Z; rh : Z }.

Definition round (r : regs) (kw : Z * Z) : regs :=
  let t1 := add32 (add32 (add32 (rh r) (Sigma1 (re r))) (Ch (re r) (rf r) (rg r)))
                  (add32 (fst kw) (snd kw)) in
  let t2 := add32 (Sigma0 (ra r)) (Maj (ra r) (rb r) (rc r)) in
  Regs (add32 t1 t2) (ra r) (rb r) (rc r) (add32 (rd r) t1) (re r) (rf r) (rg r).

Definition regs_of (h : list Z) : regs :=
  Regs (nth 0 h 0) (nth 1 h 0) (nth 2 h 0) (nth 3 h 0)
       (nth 4 h 0) (nth 5 h 0) (nth 6 h 0) (nth 7 h 0).

Definition list_of (r : regs) : list Z :=
  [ra r; rb r; rc r; rd r; re r; rf r; rg r; rh r].

Definition compress (h : list Z) (block : list Z) : list Z :=
  let w16 := be_words block in
  let w := w16 ++ schedule 48 w16 in
  let r := fold_left round (combine K w) (regs_of h) in
  map (fun p => add32 (fst p) (snd p)) (combine h (list_of r)).

Fixpoint blocks (fuel : nat) (h : list Z) (bs : list Z) : list Z :=
  match fuel with
  | O => h
  | S fuel' =>
      match bs with
      | [] => h
      | _ => blocks fuel' (compress h (firstn 64 bs)) (skipn 64 bs)
      end
  end.

Definition sha256 (msg : list Z) : list Z :=
  let p := pad msg in
  flat_map (be_bytes 4) (blocks (length p) H0 p).

(** HMAC with block size 64: a key longer than a block is hashed first. *)
Definition block_key (key : list Z) : list Z :=
  let k := if (64 <? Z.of_nat (length key)) then sha256 key else key in
  k ++ repeat 0 (64 - length k)%nat.

Definition hmac (key msg : list Z) : list Z :=
  let k := block_key key in
  sha256 (map (Z.lxor 0x5c) k ++ sha256 (map (Z.lxor 0x36) k ++ msg)).

End Sha256.

Module Crypto.

(** The object returned by [crypto.createHmac('sha256', key)]: the key and
    the data fed to it so far. *)
Record Hmac := { hmac_key : string; hmac_data : string }.

Definition createHmac_sha256 (key : string) : Hmac :=
  {| hmac_key := key; hmac_data := EmptyString |}.

Definition update (h : Hmac) (data : string) : Hmac :=
  {| hmac_key := hmac_key h; hmac_data := hmac_data h +:+ data |}.

Definition digest_hex (h : Hmac) : string :=
  Js.toString_hex
    (Sha256.hmac (Js.bytes_of_string (hmac_key h)) (Js.bytes_of_string (hmac_data h))).

(** [crypto.randomBytes(n)]: the next [n] bytes of the system's entropy
    source, which is an input of the model. *)
Definition randomBytes (entropy : nat -> Byte.byte) (n : nat) : list Z :=
  map (fun i => Z.of_N (Byte.to_N (entropy i))) (seq 0 n).

End Crypto.


(** ** Errors (src/shared/errors.ts) and other thrown values *)

Inductive ErrorKind :=
  | BadRequestError | UnauthorizedError | ForbiddenError | NotFoundError
  | ConflictError | ValidationError | TooManyRequestsError.

Definition statusCode_of (k : ErrorKind) : Z :=
  match k with
  | BadRequestError => 400
  | UnauthorizedError => 401
  | ForbiddenError => 403
  | NotFoundError => 404
  | ConflictError => 409
  | ValidationError => 422
  | TooManyRequestsError => 429
  end.

(** What a [throw] can carry: an [AppError] subclass instance, another
    [Error] instance (the worker's own [new Error(..)], the [TypeError] of a
    failed [fetch]), an error of the prisma client, or a value that is not an
    [Error] at all. *)
Inductive Thrown :=
  | AppError (kind : ErrorKind) (message : string)
  | JsError (message : string)
  | PrismaError (code : string)
  | NonError.

(** [error instanceof Error ? error.message : 'Unknown error'] *)
Definition message_or_unknown (t : Thrown) : string :=
  match t with
  | AppError _ m => m
  | JsError m => m
  | PrismaError c => c
  | NonError => "Unknown error"
  end.

#[global] Instance ErrorKind_eq_dec : EqDecision ErrorKind.
Proof. solve_decision. Defined.

#[global] Instance Thrown_eq_dec : EqDecision Thrown.
Proof. solve_decision. Defined.

(** ** What the runtime provides

    [Payload] is the type of event payloads ([Record<string, unknown>]),
    [JSON_stringify] is [JSON.stringify] on them, [URL_parses s] tells whether
    [new URL(s)] returns rather than throws, and [z_string_url s] whether
    zod's [z.string().url()] accepts [s]. *)
Class Runtime := {
  Payload : Type;
  JSON_stringify : Payload -> string;
  URL_parses : string -> bool;
  z_string_url : string -> bool;
}.

(** ** Data model (prisma models; columns as in the migration) *)

(** Table webhook_subscriptions; the primary key [id] is the key of the map. *)
Record WebhookSubscription := {
  sub_tenantId : string;
  sub_url : string;
  sub_events : list string;
  sub_secret : string;
  sub_isActive : bool;
  sub_description : option string;
  sub_createdBy : string;
  sub_createdAt : Z;
  sub_updatedAt : Z;
}.

(** Table tenant_plans; [tenantId] is unique and is the key of the map.  Of
    its columns the webhook code reads [maxWebhooks] only. *)
Record TenantPlan := {
  plan_planType : string;
  plan_maxWebhooks : Z;
}.

Section Model.
Context `{Runtime}.

(** Table webhook_deliveries.  The generated primary key is not stored: a
    row is identified by its position in the table. *)
Record WebhookDelivery := {
  dlv_webhookId : string;
  dlv_event : string;
  dlv_payload : Payload;
  dlv_url : string;
  dlv_statusCode : option Z;
  dlv_responseBody : option string;
  dlv_error : option string;
  dlv_attempts : Z;
  dlv_deliveredAt : option Z;
  dlv_createdAt : Z;
}.

(** queues.ts: [WebhookJobData] *)
Record WebhookJobData := {
  webhookId : string;
  event : string;
  url : string;
  secret : string;
  payload : Payload;
}.

(** queues.ts: the options under [defaultJobOptions] *)
Inductive BackoffType := fixed | exponential.

Record JobOptions := {
  removeOnComplete : Z;
  removeOnFail : Z;
  attempts : Z;
  backoff : option (BackoffType * Z);
}.

(** A job as the queue holds it. *)
Record Job := {
  job_name : string;
  job_data : WebhookJobData;
  job_opts : JobOptions;
  attemptsMade : Z;
}.

(** An outbound call [fetch(url, { method, headers, body })]. *)
Record HttpRequest := {
  req_url : string;
  req_method : string;
  req_headers : list (string * string);
  req_body : string;
}.

(** The state the code acts on: the three tables, the webhook queue (jobs
    in the order they were added) and the outbound calls made so far. *)
Record World := {
  webhookSubscription : gmap string WebhookSubscription;
  webhookDelivery : list WebhookDelivery;
  tenantPlan : gmap string TenantPlan;
  webhookQueue_jobs : list Job;
  network : list HttpRequest;
}.

(** *** A state monad with exceptions

    A computation runs on a world and either returns or throws; the effects
    it made before a throw stay (nothing is rolled back). *)
Inductive Completion (A : Type) :=
  | Return (a : A)
  | Throw (t : Thrown).
Global Arguments Return {A} a.
Global Arguments Throw {A} t.

Definition M (A : Type) : Type := World -> Completion A * World.

Definition ret {A} (a : A) : M A := fun w => (Return a, w).
Definition throw {A} (t : Thrown) : M A := fun w => (Throw t, w).
Definition bind {A B} (c : M A) (k : A -> M B) : M B :=
  fun w => match c w with
           | (Return a, w') => k a w'
           | (Throw t, w') => (Throw t, w')
           end.
Definition try_catch {A} (c : M A) (handler : Thrown -> M A) : M A :=
  fun w => match c w with
           | (Return a, w') => (Return a, w')
           | (Throw t, w') => handler t w'
           end.
Definition gets {A} (f : World -> A) : M A := fun w => (Return (f w), w).
Definition modify (f : World -> World) : M unit := fun w => (Return tt, f w).

End Model.

Declare Scope m_scope.
Delimit Scope m_scope with M.
Notation "x <- c ;; k" := (bind c (fun x => k))
  (at level 100, c at next level, right associativity) : m_scope.
Notation "c ;;; k" := (bind c (fun _ => k))
  (at level 100, right associativity) : m_scope.

Local Open Scope m_scope.

(** ** The persistence client (prisma) on the three tables *)

Section Prisma.
Context `{Runtime}.

Definition set_webhookSubscription (f : gmap string WebhookSubscription -> gmap string WebhookSubscription)
    (w : World) : World :=
  {| webhookSubscription := f (webhookSubscription w);
     webhookDelivery := webhookDelivery w;
     tenantPlan := tenantPlan w;
     webhookQueue_jobs := webhookQueue_jobs w;
     network := network w |}.

Definition set_webhookDelivery (f : list WebhookDelivery -> list WebhookDelivery)
    (w : World) : World :=
  {| webhookSubscription := webhookSubscription w;
     webhookDelivery := f (webhookDelivery w);
     tenantPlan := tenantPlan w;
     webhookQueue_jobs := webhookQueue_jobs w;
     network := network w |}.

Definition set_webhookQueue_jobs (f : list Job -> list Job) (w : World) : World :=
  {| webhookSubscription := webhookSubscription w;
     webhookDelivery := webhookDelivery w;
     tenantPlan := tenantPlan w;
     webhookQueue_jobs := f (webhookQueue_jobs w);
     network := network w |}.

Definition set_network (f : list HttpRequest -> list HttpRequest) (w : World) : World :=
  {| webhookSubscription := webhookSubscription w;
     webhookDelivery := webhookDelivery w;
     tenantPlan := tenantPlan w;
     webhookQueue_jobs := webhookQueue_jobs w;
     network := f (network w) |}.

(** [webhookSubscription.findFirst({ where: { id, tenantId } })] *)
Definition webhookSubscription_findFirst (id tenantId : string)
    : M (option (string * WebhookSubscription)) :=
  gets (fun w =>
    match webhookSubscription w !! id with
    | Some row => if decide (sub_tenantId row = tenantId) then Some (id, row) else None
    | None => None
    end).

(** [webhookSubscription.count({ where: { tenantId, isActive: true } })] *)
Definition is_active_of (tenantId : string) (r : string * WebhookSubscription) : Prop :=
  sub_tenantId r.2 = tenantId /\ sub_isActive r.2 = true.

Definition webhookSubscription_count_active (tenantId : string) : M Z :=
  gets (fun w =>
    Z.of_nat (length (filter (is_active_of tenantId) (map_to_list (webhookSubscription w))))).

(** [webhookSubscription.findMany({ where: { tenantId, isActive: true,
    events: { has: event } } })] *)
Definition is_subscribed (tenantId event : string) (r : string * WebhookSubscription) : Prop :=
  sub_tenantId r.2 = tenantId /\ sub_isActive r.2 = true /\ event ∈ sub_events r.2.

Definition webhookSubscription_findMany_subscribed (tenantId event : string)
    : M (list (string * WebhookSubscription)) :=
  gets (fun w => filter (is_subscribed tenantId event) (map_to_list (webhookSubscription w))).

(** [webhookSubscription.create({ data })]: the store generates the id
    ([newId]) and stamps the row ([now]); a taken id violates the primary
    key. *)
Definition webhookSubscription_create (newId : string) (row : WebhookSubscription)
    : M (string * WebhookSubscription) :=
  fun w =>
    match webhookSubscription w !! newId with
    | Some _ => (Throw (PrismaError "P2002"), w)
    | None => (Return (newId, row), set_webhookSubscription (insert newId row) w)
    end.

(** [tenantPlan.findUnique({ where: { tenantId } })] *)
Definition tenantPlan_findUnique (tenantId : string) : M (option TenantPlan) :=
  gets (fun w => tenantPlan w !! tenantId).

(** [webhookSubscription.delete({ where: { id } })] *)
Definition webhookSubscription_delete (id : string) : M unit :=
  fun w =>
    match webhookSubscription w !! id with
    | Some _ => (Return tt, set_webhookSubscription (delete id) w)
    | None => (Throw (PrismaError "P2025"), w)
    end.

(** [webhookDelivery.create({ data })]: one more row at the end of the table. *)
Definition webhookDelivery_create (row : WebhookDelivery) : M unit :=
  modify (set_webhookDelivery (fun rows => rows ++ [row])).

(** [orderBy: { createdAt: 'desc' }]; rows stamped alike keep their
    insertion order. *)
Definition newer_first (a b : WebhookDelivery) : Prop :=
  dlv_createdAt b <= dlv_createdAt a.

Global Instance newer_first_dec a b : Decision (newer_first a b).
Proof. unfold newer_first. apply _. Defined.

Definition orderBy_createdAt_desc (rows : list WebhookDelivery) : list WebhookDelivery :=
  merge_sort newer_first rows.

(** [skip] and [take] of [findMany]: a negative [skip] is refused by the
    client, a negative [take] pages from the other end of the ordering. *)
Definition skip_take {A} (skip take : Z) (rows : list A) : list A :=
  if 0 <=? take
  then firstn (Z.to_nat take) (skipn (Z.to_nat skip) rows)
  else rev (firstn (Z.to_nat (- take)) (skipn (Z.to_nat skip) (rev rows))).

(** [webhookDelivery.findMany({ where: { webhookId }, skip, take,
    orderBy: { createdAt: 'desc' } })] *)
Definition webhookDelivery_findMany (id : string) (skip take : Z)
    : M (list WebhookDelivery) :=
  if skip <? 0 then throw (PrismaError "PrismaClientValidationError")
  else gets (fun w =>
         skip_take skip take
           (orderBy_createdAt_desc
              (filter (fun r => dlv_webhookId r = id) (webhookDelivery w)))).

(** [webhookDelivery.count({ where: { webhookId } })] *)
Definition webhookDelivery_count (id : string) : M Z :=
  gets (fun w =>
    Z.of_nat (length (filter (fun r => dlv_webhookId r = id) (webhookDelivery w)))).

End Prisma.

(** ** webhook.schema.ts: the zod schemas the routes parse bodies with *)

Record CreateWebhookInput := {
  ci_url : string;
  ci_events : list string;
  ci_description : option string;
}.

(** A field that is absent ([undefined]) is [None]. *)
Record UpdateWebhookInput := {
  ui_url : option string;
  ui_events : option (list string);
  ui_description : option string;
  ui_isActive : option bool;
}.

Section Schema.
Context `{Runtime}.

(** [createWebhookSchema.safeParse(body).success] *)
Definition createWebhookSchema (body : CreateWebhookInput) : bool :=
  z_string_url (ci_url body) && (1 <=? length (ci_events body))%nat.

(** [updateWebhookSchema.safeParse(body).success] *)
Definition updateWebhookSchema (body : UpdateWebhookInput) : bool :=
  match ui_url body with Some u => z_string_url u | None => true end
  && match ui_events body with Some es => (1 <=? length es)%nat | None => true end.

End Schema.

(** ** queues.ts: the webhook queue *)

Section Queue.
Context `{Runtime}.

(** [defaultJobOptions] of [webhookQueue] *)
Definition webhookQueue_defaultJobOptions : JobOptions :=
  {| removeOnComplete := 100;
     removeOnFail := 500;
     attempts := 5;
     backoff := Some (exponential, 5000) |}.

(** A job as [webhookQueue.add(name, data)] creates it: the queue's default
    options, no attempt made yet. *)
Definition new_job (name : string) (data : WebhookJobData) : Job :=
  {| job_name := name; job_data := data;
     job_opts := webhookQueue_defaultJobOptions; attemptsMade := 0 |}.

(** [webhookQueue.add(name, data)] *)
Definition webhookQueue_add (name : string) (data : WebhookJobData) : M Job :=
  fun w =>
    let job := new_job name data in
    (Return job, set_webhookQueue_jobs (fun q => q ++ [job]) w).

Definition addWebhookJob (data : WebhookJobData) : M Job :=
  webhookQueue_add ("webhook-" +:+ event data) data.

End Queue.

(** ** webhook.service.ts *)

(** What the environment decides when a subscription is created: the id and
    the time stamp the store gives the row, and the system's entropy. *)
Record CreateEnv := {
  env_newId : string;
  env_now : Z;
  env_entropy : nat -> Byte.byte;
}.

Record WebhookEvent `{Runtime} := {
  we_event : string;
  we_tenantId : string;
  we_payload : Payload;
}.

(** The object [triggerWebhooks] returns. *)
Record TriggerResult := { triggered : Z }.

Section Service.
Context `{Runtime}.

(** A non-empty string is truthy. *)
Definition truthy (s : string) : bool := negb (bool_decide (s = EmptyString)).

Fixpoint mapM {A B} (f : A -> M B) (l : list A) : M (list B) :=
  match l with
  | [] => ret []
  | a :: l' => b <- f a ;; bs <- mapM f l' ;; ret (b :: bs)
  end.

(** The secret of a new subscription:
    [crypto.randomBytes(32).toString('hex')]. *)
Definition new_secret (env : CreateEnv) : string :=
  Js.toString_hex (Crypto.randomBytes (env_entropy env) 32).

(** The row [webhookSubscription.create] stores: the [data] given by
    [createWebhook], the default of [isActive] and the time stamps. *)
Definition created_row (env : CreateEnv) (tenantId userId : string)
    (input : CreateWebhookInput) (secret : string) : WebhookSubscription :=
  {| sub_tenantId := tenantId;
     sub_url := ci_url input;
     sub_events := ci_events input;
     sub_secret := secret;
     sub_isActive := true;
     sub_description := ci_description input;
     sub_createdBy := userId;
     sub_createdAt := env_now env;
     sub_updatedAt := env_now env |}.

Definition limit_reached (plan : TenantPlan) : Thrown :=
  AppError ConflictError
    ("Webhook limit reached. Your plan allows "
     +:+ Js.Number_toString (plan_maxWebhooks plan) +:+ " webhooks.").

Definition createWebhook (env : CreateEnv) (tenantId userId : string)
    (input : CreateWebhookInput) : M (string * WebhookSubscription) :=
  (* Validate URL *)
  (if URL_parses (ci_url input) then ret tt
   else throw (AppError ValidationError "Invalid webhook URL")) ;;;
  (* Validate events array *)
  (if (length (ci_events input) =? 0)%nat
   then throw (AppError ValidationError "At least one event must be specified")
   else ret tt) ;;;
  (* Check tenant's webhook limit (from plan) *)
  plan <- tenantPlan_findUnique tenantId ;;
  match plan with
  | Some plan =>
      existingCount <- webhookSubscription_count_active tenantId ;;
      if plan_maxWebhooks plan <=? existingCount
      then throw (limit_reached plan)
      else ret tt
  | None => ret tt
  end ;;;
  (* Generate secure secret for HMAC signing *)
  let secret := new_secret env in
  webhookSubscription_create (env_newId env)
    (created_row env tenantId userId input secret).

(** The subscription [id] exists and is the tenant's. *)
Definition belongs_to (w : World) (tenantId id : string) : Prop :=
  exists row, webhookSubscription w !! id = Some row /\ sub_tenantId row = tenantId.

(** What the operations of the registry throw for a subscription that is not
    there for the caller. *)
Definition not_found : Thrown := AppError NotFoundError "Webhook not found".

Definition getWebhook (webhookId tenantId : string) : M (string * WebhookSubscription) :=
  webhook <- webhookSubscription_findFirst webhookId tenantId ;;
  match webhook with
  | None => throw (AppError NotFoundError "Webhook not found")
  | Some webhook => ret webhook
  end.

(** [webhookSubscription.update({ where: { id }, data: input })]: the
    supplied fields replace the stored ones, the others stay, and the row's
    [updatedAt] is stamped. *)
Definition apply_data (input : UpdateWebhookInput) (now : Z) (row : WebhookSubscription)
    : WebhookSubscription :=
  {| sub_tenantId := sub_tenantId row;
     sub_url := default (sub_url row) (ui_url input);
     sub_events := default (sub_events row) (ui_events input);
     sub_secret := sub_secret row;
     sub_isActive := default (sub_isActive row) (ui_isActive input);
     sub_description :=
       match ui_description input with
       | Some d => Some d
       | None => sub_description row
       end;
     sub_createdBy := sub_createdBy row;
     sub_createdAt := sub_createdAt row;
     sub_updatedAt := now |}.

Definition webhookSubscription_update (id : string) (input : UpdateWebhookInput) (now : Z)
    : M (string * WebhookSubscription) :=
  fun w =>
    match webhookSubscription w !! id with
    | Some row =>
        let row' := apply_data input now row in
        (Return (id, row'), set_webhookSubscription (insert id row') w)
    | None => (Throw (PrismaError "P2025"), w)
    end.

Definition updateWebhook (now : Z) (webhookId tenantId : string)
    (input : UpdateWebhookInput) : M (string * WebhookSubscription) :=
  webhook <- getWebhook webhookId tenantId ;;
  match ui_url input with
  | Some u =>
      if truthy u
      then if URL_parses u then ret tt
           else throw (AppError ValidationError "Invalid webhook URL")
      else ret tt
  | None => ret tt
  end ;;;
  match ui_events input with
  | Some es =>
      if (length es =? 0)%nat
      then throw (AppError ValidationError "At least one event must be specified")
      else ret tt
  | None => ret tt
  end ;;;
  webhookSubscription_update webhook.1 input now.

(** Whether the two checks of [updateWebhook] refuse the input (used to state
    what it does). *)
Definition url_refused (input : UpdateWebhookInput) : bool :=
  match ui_url input with
  | Some u => truthy u && negb (URL_parses u)
  | None => false
  end.

Definition events_refused (input : UpdateWebhookInput) : bool :=
  match ui_events input with
  | Some es => (length es =? 0)%nat
  | None => false
  end.

(** The handler of PATCH /webhooks/:id in the routes file, behind its guards:
    the body goes through the schema first. *)
Definition patch_webhook (now : Z) (id tenantId : string) (body : UpdateWebhookInput)
    : M (string * WebhookSubscription) :=
  if updateWebhookSchema body
  then updateWebhook now id tenantId body
  else throw (AppError ValidationError "Validation failed").

Definition deleteWebhook (webhookId tenantId : string) : M unit :=
  webhook <- getWebhook webhookId tenantId ;;
  webhookSubscription_delete webhook.1.

Definition getWebhookDeliveries (webhookId tenantId : string) (page limit : Z)
    : M (list WebhookDelivery * Z) :=
  (* Verify webhook belongs to tenant *)
  getWebhook webhookId tenantId ;;;
  let skip := (page - 1) * limit in
  deliveries <- webhookDelivery_findMany webhookId skip limit ;;
  total <- webhookDelivery_count webhookId ;;
  ret (deliveries, total).

Definition triggerWebhooks (eventData : WebhookEvent) : M TriggerResult :=
  let event := we_event eventData in
  let tenantId := we_tenantId eventData in
  let payload := we_payload eventData in
  (* Find all active webhooks subscribed to this event *)
  webhooks <- webhookSubscription_findMany_subscribed tenantId event ;;
  if (length webhooks =? 0)%nat then ret {| triggered := 0 |}
  else
    (* Enqueue webhook deliveries *)
    jobs <- mapM (fun webhook : string * WebhookSubscription =>
              addWebhookJob {| webhookId := webhook.1;
                               event := event;
                               url := sub_url webhook.2;
                               secret := sub_secret webhook.2;
                               payload := payload |}) webhooks ;;
    ret {| triggered := Z.of_nat (length webhooks) |}.

End Service.

(** ** The webhook worker *)

(** How an outbound call ends: a response with its status and its body
    ([None] when reading the body fails), or a rejected [fetch]. *)
Inductive FetchResult :=
  | Response (status : Z) (text : option string)
  | Rejected (reason : Thrown).

(** [response.ok] *)
Definition ok (status : Z) : bool := (200 <=? status) && (status <=? 299).

(** What the processor returns on success: [{ success: true, statusCode }]. *)
Record ProcessorReturn := { success : bool; statusCode : Z }.

Section Worker.
Context `{Runtime}.

(** What the environment decides during one attempt: the clock read by
    [Date.now()], the subscriber's answer to the request, the clock read by
    [new Date()], and the time stamps the store gives to the rows. *)
Record AttemptEnv := {
  Date_now : Z;
  endpoint : HttpRequest -> FetchResult;
  new_Date : Z;
  store_now : Z;
  store_now_catch : Z;
}.

(** [await fetch(url, init)]: the call goes out, then resolves or rejects. *)
Definition fetch (env : AttemptEnv) (req : HttpRequest) : M (Z * option string) :=
  fun w =>
    let w' := set_network (fun calls => calls ++ [req]) w in
    match endpoint env req with
    | Response status text => (Return (status, text), w')
    | Rejected reason => (Throw reason, w')
    end.

Definition sign (secret : string) (timestamp : Z) (payload : Payload) : string :=
  let signaturePayload :=
    Js.Number_toString timestamp +:+ "." +:+ JSON_stringify payload in
  Crypto.digest_hex
    (Crypto.update (Crypto.createHmac_sha256 secret) signaturePayload).

Definition webhookRequest (data : WebhookJobData) (timestamp : Z) : HttpRequest :=
  {| req_url := url data;
     req_method := "POST";
     req_headers :=
       [ ("Content-Type", "application/json");
         ("X-Webhook-Event", event data);
         ("X-Webhook-Signature", sign (secret data) timestamp (payload data));
         ("X-Webhook-Timestamp", Js.Number_toString timestamp);
         ("User-Agent", "Enterprise-SaaS-Webhook/1.0") ];
     req_body := JSON_stringify (payload data) |}.

(** The [data] of the row logged after a response came back. *)
Definition response_row (data : WebhookJobData) (attemptNumber : Z) (env : AttemptEnv)
    (statusCode : Z) (responseBody : string) : WebhookDelivery :=
  {| dlv_webhookId := webhookId data;
     dlv_event := event data;
     dlv_payload := payload data;
     dlv_url := url data;
     dlv_statusCode := Some statusCode;
     dlv_responseBody := Some (Js.slice0 1000 responseBody);
     dlv_error :=
       if ok statusCode then None
       else Some ("HTTP " +:+ Js.Number_toString statusCode);
     dlv_attempts := attemptNumber;
     dlv_deliveredAt := if ok statusCode then Some (new_Date env) else None;
     dlv_createdAt := store_now env |}.

(** The [data] of the row logged by the [catch] block; the columns it does
    not give are NULL. *)
Definition caught_row (data : WebhookJobData) (attemptNumber : Z) (env : AttemptEnv)
    (errorMessage : string) : WebhookDelivery :=
  {| dlv_webhookId := webhookId data;
     dlv_event := event data;
     dlv_payload := payload data;
     dlv_url := url data;
     dlv_statusCode := None;
     dlv_responseBody := None;
     dlv_error := Some errorMessage;
     dlv_attempts := attemptNumber;
     dlv_deliveredAt := None;
     dlv_createdAt := store_now_catch env |}.

(** The processor given to [new Worker('webhooks', ..)]. *)
Definition webhookProcessor (env : AttemptEnv) (job : Job) : M ProcessorReturn :=
  let data := job_data job in
  let attemptNumber := attemptsMade job + 1 in
  try_catch
    ((* Create HMAC signature, send webhook HTTP POST *)
     let timestamp := Date_now env in
     response <- fetch env (webhookRequest data timestamp) ;;
     let statusCode := response.1 in
     let responseBody := default EmptyString response.2 in
     (* Log delivery attempt *)
     webhookDelivery_create
       (response_row data attemptNumber env statusCode responseBody) ;;;
     if negb (ok statusCode)
     then throw (JsError ("Webhook delivery failed with status "
                          +:+ Js.Number_toString statusCode))
     else ret {| success := true; statusCode := statusCode |})
    (fun error =>
       let errorMessage := message_or_unknown error in
       (* Log failed delivery *)
       webhookDelivery_create (caught_row data attemptNumber env errorMessage) ;;;
       (* Re-throw to trigger retry *)
       throw error).

(** The request an attempt sends, and the two effects an attempt has on the
    world (used to state what the processor does). *)
Definition sent (env : AttemptEnv) (job : Job) : HttpRequest :=
  webhookRequest (job_data job) (Date_now env).

Definition called (env : AttemptEnv) (job : Job) (w : World) : World :=
  set_network (fun calls => calls ++ [sent env job]) w.

Definition logged (row : WebhookDelivery) (w : World) : World :=
  set_webhookDelivery (fun rows => rows ++ [row]) w.

(** The value of a header of a request. *)
Definition header (name : string) (req : HttpRequest) : option string :=
  snd <$> List.find (fun h => bool_decide (h.1 = name)) (req_headers req).

(** The check of the wire contract, on the subscriber's side: recompute the
    HMAC of the time stamp header, a dot and the raw body under the shared
    secret, and compare it with the signature header. *)
Definition subscriber_accepts (shared_secret : string) (req : HttpRequest) : bool :=
  match header "X-Webhook-Timestamp" req, header "X-Webhook-Signature" req with
  | Some ts, Some sig =>
      bool_decide
        (sig = Js.toString_hex
                 (Sha256.hmac (Js.bytes_of_string shared_secret)
                    (Js.bytes_of_string (ts +:+ "." +:+ req_body req))))
  | _, _ => false
  end.

(** [worker.on('failed', ..)]: whether the handler reports the job as
    having exhausted its retries. *)
Definition on_failed_reports_exhausted (job : option Job) : bool :=
  match job with
  | Some job => 5 <=? attemptsMade job
  | None => false
  end.

End Worker.

(** ** The queue's retry policy *)

(** The states a job ends in. *)
Inductive JobState := SUCCEEDED | EXHAUSTED.

(** What a run of a job leaves behind, besides the world: the ordinals of
    the attempts in the order they were made, the delay waited before each
    retry, whether the failed-handler reported exhaustion, and the final
    state. *)
Record JobRun := {
  run_ordinals : list Z;
  run_delays : list Z;
  run_reported : bool;
  run_state : JobState;
}.

Section Retry.
Context `{Runtime}.

(** Modelled from the spec: the job queue itself (the bullmq library that
    stores jobs, counts [attemptsMade] and schedules retries) is not part of
    the sources.  Section 4.3: exponential backoff with base delay d0 and
    multiplier 2, so the retry after the k-th failure waits d0 * 2^(k-1);
    a fixed backoff waits d0 each time. *)
Definition backoff_delay (opts : JobOptions) (failures : Z) : Z :=
  match backoff opts with
  | Some (exponential, d0) => d0 * 2 ^ (failures - 1)
  | Some (fixed, d0) => d0
  | None => 0
  end.

Definition failed_once (job : Job) : Job :=
  {| job_name := job_name job; job_data := job_data job;
     job_opts := job_opts job; attemptsMade := attemptsMade job + 1 |}.

(** Modelled from the spec: the life of one job, QUEUED -> ACTIVE ->
    SUCCEEDED, or on failure RETRY_SCHEDULED -> QUEUED again while fewer than
    [attempts] attempts were made, EXHAUSTED after that.  [envs n] is the
    environment of the attempt with ordinal [n]; [retries] bounds the
    retries still allowed. *)
Fixpoint attempt_loop (retries : nat) (envs : Z -> AttemptEnv) (job : Job) (w : World)
    : JobRun * World :=
  let ordinal := attemptsMade job + 1 in
  match webhookProcessor (envs ordinal) job w with
  | (Return _, w') =>
      ({| run_ordinals := [ordinal]; run_delays := [];
          run_reported := false; run_state := SUCCEEDED |}, w')
  | (Throw _, w') =>
      let job' := failed_once job in
      let reported := on_failed_reports_exhausted (Some job') in
      match retries with
      | S retries' =>
          let (rest, w'') := attempt_loop retries' envs job' w' in
          ({| run_ordinals := ordinal :: run_ordinals rest;
              run_delays := backoff_delay (job_opts job) (attemptsMade job')
                            :: run_delays rest;
              run_reported := reported || run_reported rest;
              run_state := run_state rest |}, w'')
      | O =>
          ({| run_ordinals := [ordinal]; run_delays := [];
              run_reported := reported; run_state := EXHAUSTED |}, w')
      end
  end.

Definition run_job (envs : Z -> AttemptEnv) (job : Job) (w : World) : JobRun * World :=
  attempt_loop (Z.to_nat (attempts (job_opts job) - 1 - attemptsMade job)) envs job w.

End Retry.

(** ** A concrete runtime and world for the examples

    Payloads are given by their JSON text, and the URL parser is replaced by a
    test that agrees with [new URL] on the strings the examples use: the
    string must start with [http://] or [https://] and go on after it. *)

Module Sample.

Definition starts_with (p s : string) : bool :=
  bool_decide (Js.slice0 (String.length p) s = p).

Definition url_test (s : string) : bool :=
  (starts_with "http://" s && (7 <? String.length s)%nat)
  || (starts_with "https://" s && (8 <? String.length s)%nat).

#[export] Instance runtime : Runtime :=
  {| Payload := string;
     JSON_stringify := fun p => p;
     URL_parses := url_test;
     z_string_url := url_test |}.

Definition acme_hook : WebhookSubscription :=
  {| sub_tenantId := "acme";
     sub_url := "https://acme.example/hook";
     sub_events := ["user.created"; "post.published"];
     sub_secret := "s3cr3t";
     sub_isActive := true;
     sub_description := None;
     sub_createdBy := "u1";
     sub_createdAt := 1000;
     sub_updatedAt := 1000 |}.

Definition acme_paused : WebhookSubscription :=
  {| sub_tenantId := "acme";
     sub_url := "https://acme.example/paused";
     sub_events := ["user.created"];
     sub_secret := "p4us3d";
     sub_isActive := false;
     sub_description := Some "paused";
     sub_createdBy := "u1";
     sub_createdAt := 1100;
     sub_updatedAt := 1200 |}.

Definition globex_hook : WebhookSubscription :=
  {| sub_tenantId := "globex";
     sub_url := "https://globex.example/in";
     sub_events := ["user.created"];
     sub_secret := "gl0b3x";
     sub_isActive := true;
     sub_description := None;
     sub_createdBy := "u9";
     sub_createdAt := 1300;
     sub_updatedAt := 1300 |}.

Definition row (id ev : string) (attempt at_ : Z) : WebhookDelivery :=
  {| dlv_webhookId := id;
     dlv_event := ev;
     dlv_payload := "{}";
     dlv_url := "https://acme.example/hook";
     dlv_statusCode := Some 200;
     dlv_responseBody := Some "ok";
     dlv_error := None;
     dlv_attempts := attempt;
     dlv_deliveredAt := Some at_;
     dlv_createdAt := at_ |}.

Definition world : World :=
  {| webhookSubscription :=
       <["wh1" := acme_hook]> (<["wh2" := acme_paused]> (<["wh3" := globex_hook]> ∅));
     webhookDelivery := [row "wh1" "user.created" 1 2000; row "wh3" "user.created" 1 2100];
     tenantPlan := <["acme" := {| plan_planType := "free"; plan_maxWebhooks := 1 |}]> ∅;
     webhookQueue_jobs := [];
     network := [] |}.

(** The text [{"id":1}]. *)
Definition dquote : string := String (ascii_of_N 34) EmptyString.

Definition snapshot : WebhookJobData :=
  {| webhookId := "wh1";
     event := "user.created";
     url := "https://acme.example/hook";
     secret := "s3cr3t";
     payload := "{" +:+ dquote +:+ "id" +:+ dquote +:+ ":1}" |}.
(** A subscriber that answers 500 to the first two attempts and 200 from the
    third on, one that always answers 500, and one that cannot be reached. *)
Definition at_attempt (answer : Z -> FetchResult) (ordinal : Z) : AttemptEnv :=
  {| Date_now := 1700000000000 + ordinal;
     endpoint := fun _ => answer ordinal;
     new_Date := 1700000000200 + ordinal;
     store_now := 1700000000300 + ordinal;
     store_now_catch := 1700000000400 + ordinal |}.

Definition flaky : Z -> AttemptEnv :=
  at_attempt (fun ordinal =>
    if ordinal <=? 2 then Response 500 (Some "try later") else Response 200 (Some "ok")).

Definition broken : Z -> AttemptEnv :=
  at_attempt (fun _ => Response 500 (Some "try later")).

Definition unreachable : Z -> AttemptEnv :=
  at_attempt (fun _ => Rejected (JsError "fetch failed")).

Definition job : Job := new_job "webhook-user.created" snapshot.

(** The columns of a row the examples look at. *)
Definition summary (r : WebhookDelivery) : Z * option Z * option string * bool :=
  (dlv_attempts r, dlv_statusCode r, dlv_error r, bool_decide (is_Some (dlv_deliveredAt r))).

Definition create_env : CreateEnv :=
  {| env_newId := "wh4"; env_now := 3000; env_entropy := fun i => Byte.xab |}.

Definition good_input : CreateWebhookInput :=
  {| ci_url := "https://acme.example/new";
     ci_events := ["post.published"];
     ci_description := None |}.


Definition empty_world : World :=
  {| webhookSubscription := ∅; webhookDelivery := []; tenantPlan := ∅;
     webhookQueue_jobs := []; network := [] |}.
End Sample.

(** ** webhook.service.ts: the listing of a tenant's subscriptions *)

Section Listing.
Context `{Runtime}.

(** [orderBy: { createdAt: 'desc' }] on subscriptions; rows stamped alike keep
    the order the table lists them in. *)
Definition newer_subscription_first (a b : string * WebhookSubscription) : Prop :=
  sub_createdAt b.2 <= sub_createdAt a.2.

Global Instance newer_subscription_first_dec a b : Decision (newer_subscription_first a b).
Proof. unfold newer_subscription_first. apply _. Defined.

(** [webhookSubscription.findMany({ where: { tenantId }, skip, take,
    orderBy: { createdAt: 'desc' } })] *)
Definition webhookSubscription_findMany_page (tenantId : string) (skip take : Z)
    : M (list (string * WebhookSubscription)) :=
  if skip <? 0 then throw (PrismaError "PrismaClientValidationError")
  else gets (fun w =>
         skip_take skip take
           (merge_sort newer_subscription_first
              (filter (fun r => sub_tenantId r.2 = tenantId)
                 (map_to_list (webhookSubscription w))))).

(** [webhookSubscription.count({ where: { tenantId } })] *)
Definition webhookSubscription_count (tenantId : string) : M Z :=
  gets (fun w =>
    Z.of_nat (length (filter (fun r => sub_tenantId r.2 = tenantId)
                        (map_to_list (webhookSubscription w))))).

Definition listWebhooks (tenantId : string) (page limit : Z)
    : M (list (string * WebhookSubscription) * Z) :=
  let skip := (page - 1) * limit in
  webhooks <- webhookSubscription_findMany_page tenantId skip limit ;;
  total <- webhookSubscription_count tenantId ;;
  ret (webhooks, total).

End Listing.

(** ** shared/response.ts *)

(** [ApiResponse['meta']]; a number that is not finite (a division by zero)
    is [None] in [meta_totalPages]. *)
Record Meta := {
  meta_page : Z;
  meta_limit : Z;
  meta_total : Z;
  meta_totalPages : option Z;
}.

(** [ApiResponse<T>]; an absent field is [None]. *)
Record ApiResponse (T : Type) := {
  res_success : bool;
  res_data : option T;
  res_message : option string;
  res_error : option (string * option string);
  res_meta : option Meta;
}.
Global Arguments res_success {T} _.
Global Arguments res_data {T} _.
Global Arguments res_message {T} _.
Global Arguments res_error {T} _.
Global Arguments res_meta {T} _.

(** [Math.ceil(total / limit)] on integers: the least integer not below the
    quotient, and no finite number when [limit] is zero. *)
Definition Math_ceil_quotient (total limit : Z) : option Z :=
  if limit =? 0 then None else Some (- ((- total) / limit)).

(** [...(message && { message })]: the field is there for a non-empty message. *)
Definition successResponse {T} (data : T) (message : option string) (meta : option Meta)
    : ApiResponse T :=
  {| res_success := true;
     res_data := Some data;
     res_message :=
       match message with
       | Some m => if bool_decide (m = EmptyString) then None else Some m
       | None => None
       end;
     res_error := None;
     res_meta := meta |}.

Definition errorResponse (message code : string) (details : option string)
    : ApiResponse unit :=
  {| res_success := false;
     res_data := None;
     res_message := Some message;
     res_error := Some (code, details);
     res_meta := None |}.

Definition paginatedResponse {T} (data : list T) (total page limit : Z)
    : ApiResponse (list T) :=
  {| res_success := true;
     res_data := Some data;
     res_message := None;
     res_error := None;
     res_meta := Some {| meta_page := page;
                         meta_limit := limit;
                         meta_total := total;
                         meta_totalPages := Math_ceil_quotient total limit |} |}.

(** ** The handlers of the webhook routes, behind their guards *)


(** What a handler sends: [reply.status(..).send(..)], status 200 by default. *)
Record Reply (T : Type) := {
  reply_status : Z;
  reply_body : ApiResponse T;
}.
Global Arguments reply_status {T} _.
Global Arguments reply_body {T} _.

Section Routes.
Context `{Runtime}.



(** POST /webhooks *)
Definition post_webhooks (env : CreateEnv) (tenantId userId : string)
    (body : CreateWebhookInput) : M (Reply (string * WebhookSubscription)) :=
  if createWebhookSchema body
  then webhook <- createWebhook env tenantId userId body ;;
       ret {| reply_status := 201;
              reply_body := successResponse webhook
                              (Some "Webhook created successfully") None |}
  else throw (AppError ValidationError "Validation failed").

(** GET /webhooks/:id *)
Definition get_webhook (tenantId id : string) : M (Reply (string * WebhookSubscription)) :=
  webhook <- getWebhook id tenantId ;;
  ret {| reply_status := 200; reply_body := successResponse webhook None None |}.

(** DELETE /webhooks/:id; the [data] sent is [null]. *)
Definition delete_webhook (tenantId id : string) : M (Reply unit) :=
  deleteWebhook id tenantId ;;;
  ret {| reply_status := 200;
         reply_body := successResponse tt (Some "Webhook deleted successfully") None |}.


End Routes.

(** ** The cleanup worker (same file as the webhook worker)

    The tables it deletes from are given by the column each [where] reads. *)

Section CleanupWorker.
Variables RefreshToken AuditLog : Type.
Variable expiresAt : RefreshToken -> Z.
Variable createdAt : AuditLog -> Z.

Record CleanupStore := {
  refreshToken : list RefreshToken;
  auditLog : list AuditLog;
}.

(** What the processor returns: [{ type, deleted }], or nothing at all for a
    type it does not know. *)
Inductive CleanupReturn :=
  | CleanupDone (type : string) (deleted : Z)
  | CleanupUndefined.

(** [deleteMany({ where: { column: { lt: bound } } })]: the rows kept and the
    [count] of the rows deleted. *)
Definition deleteMany_lt {A} (column : A -> Z) (bound : Z) (rows : list A) : list A * Z :=
  (filter (fun r => ~ column r < bound) rows,
   Z.of_nat (length (filter (fun r => column r < bound) rows))).

Definition ninety_days : Z := 90 * 24 * 60 * 60 * 1000.

(** The processor given to [new Worker('cleanup', ..)]; [now] is the clock
    read by [new Date()] and [Date.now()]. *)
Definition cleanupProcessor (now : Z) (type : string) (s : CleanupStore)
    : CleanupReturn * CleanupStore :=
  if bool_decide (type = "expired-tokens") then
    let deleted := deleteMany_lt expiresAt now (refreshToken s) in
    (CleanupDone type deleted.2,
     {| refreshToken := deleted.1; auditLog := auditLog s |})
  else if bool_decide (type = "expired-sessions") then
    (CleanupDone type 0, s)
  else if bool_decide (type = "old-audit-logs") then
    let cutoff := now - ninety_days in
    let deleted := deleteMany_lt createdAt cutoff (auditLog s) in
    (CleanupDone type deleted.2,
     {| refreshToken := refreshToken s; auditLog := deleted.1 |})
  else (CleanupUndefined, s).

End CleanupWorker.

(** ** Invariants of the subscription table *)

Section Invariants.
Context `{Runtime}.

(** Every subscription subscribes to at least one event. *)
Definition events_nonempty (w : World) : Prop :=
  map_Forall (fun _ row => sub_events row <> []) (webhookSubscription w).

(** Every subscription's secret is 64 hexadecimal digits. *)
Definition secrets_well_formed (w : World) : Prop :=
  map_Forall
    (fun _ row => String.length (sub_secret row) = 64%nat
                  /\ Js.string_forallb Js.is_hex_digit (sub_secret row) = true)
    (webhookSubscription w).

(** Every subscription's url is one [new URL] accepts. *)
Definition urls_parse (w : World) : Prop :=
  map_Forall (fun _ row => URL_parses (sub_url row) = true) (webhookSubscription w).

(** The jobs a call added to the queue, and the rows a call added to the
    delivery table. *)
Definition jobs_added (before after : World) : list Job :=
  drop (length (webhookQueue_jobs before)) (webhookQueue_jobs after).




End Invariants.

(** ** More of the sample world *)

Module Fixtures.
Import Sample.

Definition all_null : UpdateWebhookInput :=
  {| ui_url := None; ui_events := None; ui_description := None; ui_isActive := None |}.

Definition pause : UpdateWebhookInput :=
  {| ui_url := None; ui_events := None; ui_description := None;
     ui_isActive := Some false |}.

Definition bad_url : UpdateWebhookInput :=
  {| ui_url := Some "not a url"; ui_events := None; ui_description := None;
     ui_isActive := None |}.

Definition user_created : WebhookEvent :=
  {| we_event := "user.created"; we_tenantId := "acme"; we_payload := "{}" |}.

(** A token is its expiry, an audit log row its creation time. *)
Definition store : CleanupStore Z Z :=
  {| refreshToken := [100; 250; 300; 50]; auditLog := [7776000000; 10; 7776000500] |}.

(** The cleanup processor on that store. *)
Definition sweep := cleanupProcessor Z Z (fun t => t) (fun l => l).

(** The sample world after globex created a subscription, after acme paused
    its subscription wh1, and after acme deleted it. *)
Definition globex_created : string * WebhookSubscription :=
  ("wh4", created_row create_env "globex" "u9" good_input (new_secret create_env)).

Definition after_create : World :=
  (createWebhook create_env "globex" "u9" good_input world).2.



Definition after_delete : World := (deleteWebhook "wh1" "acme" world).2.

(** The sample world with both subscriptions of acme active, and what is
    left of it after acme paused wh1, and after acme deleted wh1. *)
Definition resume : UpdateWebhookInput :=
  {| ui_url := None; ui_events := None; ui_description := None;
     ui_isActive := Some true |}.

Definition both_active : World := (updateWebhook 4000 "wh2" "acme" resume world).2.

Definition wh1_paused : World := (updateWebhook 5000 "wh1" "acme" pause both_active).2.

Definition wh1_deleted : World := (deleteWebhook "wh1" "acme" both_active).2.

(** The job the dispatch of [user_created] adds for wh1. *)
Definition dispatched_data : WebhookJobData :=
  {| webhookId := "wh1"; event := "user.created";
     url := "https://acme.example/hook"; secret := "s3cr3t"; payload := "{}" |}.

Definition dispatched_job : Job := new_job "webhook-user.created" dispatched_data.

(** A world whose only subscription was created by [createWebhook]. *)
Definition fresh_world : World :=
  (createWebhook create_env "globex" "u9" good_input empty_world).2.

End Fixtures.

(** * Properties *)

(** ** Runtime primitives *)

Example sha256_abc :
  Js.toString_hex (Sha256.sha256 (Js.bytes_of_string "abc"))
  = "ba7816bf8f01cfea414140de5dae2223b00361a396177a9cb410ff61f20015ad".
Proof. vm_compute. reflexivity. Qed.

Example sha256_empty :
  Js.toString_hex (Sha256.sha256 [])
  = "e3b0c44298fc1c149afbf4c8996fb92427ae41e4649b934ca495991b7852b855".
Proof. vm_compute. reflexivity. Qed.

Example sha256_two_blocks :
  Js.toString_hex (Sha256.sha256 (repeat 97 56))
  = "b35439a4ac6f0948b6d6f9e3c6af0f5f590ce20f1bde7090ef7970686ec6738a".
Proof. vm_compute. reflexivity. Qed.

(** RFC 4231, test case 2. *)
Example hmac_rfc4231_case2 :
  Crypto.digest_hex
    (Crypto.update (Crypto.createHmac_sha256 "Jefe") "what do ya want for nothing?")
  = "5bdcc146bf60754e6a042426089575c75a003f089d2739839dec58b964ec3843".
Proof. vm_compute. reflexivity. Qed.

Example Number_toString_examples :
  Js.Number_toString 1700000000000 = "1700000000000"
  /\ Js.Number_toString 0 = "0" /\ Js.Number_toString 500 = "500"
  /\ Js.Number_toString (-1) = "-1".
Proof. vm_compute. auto. Qed.

Lemma hex_digit_is_hex (d : Z) :
  0 <= d < 16 -> Js.is_hex_digit (Js.hex_digit d) = true.
Proof.
  intros Hd.
  assert (Hcases : d = 0 \/ d = 1 \/ d = 2 \/ d = 3 \/ d = 4 \/ d = 5 \/ d = 6 \/ d = 7
                   \/ d = 8 \/ d = 9 \/ d = 10 \/ d = 11 \/ d = 12 \/ d = 13 \/ d = 14
                   \/ d = 15) by lia.
  repeat (destruct Hcases as [-> | Hcases]; [reflexivity |]).
  subst d. reflexivity.
Qed.

Lemma toString_hex_length (bs : list Z) :
  String.length (Js.toString_hex bs) = (2 * length bs)%nat.
Proof.
  induction bs as [| b bs IH]; simpl; [reflexivity |].
  rewrite IH. lia.
Qed.

Lemma toString_hex_digits (bs : list Z) :
  Js.string_forallb Js.is_hex_digit (Js.toString_hex bs) = true.
Proof.
  induction bs as [| b bs IH]; simpl; [reflexivity |].
  rewrite !hex_digit_is_hex, IH; [reflexivity | |]; apply Z.mod_pos_bound; lia.
Qed.

Lemma randomBytes_length (entropy : nat -> Byte.byte) (n : nat) :
  length (Crypto.randomBytes entropy n) = n.
Proof. unfold Crypto.randomBytes. by rewrite length_map, length_seq. Qed.



Lemma append_assoc (a b c : string) : (a +:+ b) +:+ c = a +:+ (b +:+ c).
Proof.
  induction a as [| x a IH]; [reflexivity |].
  change (String x ((a +:+ b) +:+ c) = String x (a +:+ (b +:+ c))). by rewrite IH.
Qed.

(** Feeding an HMAC object in pieces is feeding it the concatenation. *)
Lemma update_update (h : Crypto.Hmac) (a b : string) :
  Crypto.update (Crypto.update h a) b = Crypto.update h (a +:+ b).
Proof. unfold Crypto.update; simpl. f_equal. apply append_assoc. Qed.

(** ** The worker, one attempt at a time *)

Section WorkerFacts.
Context `{Runtime}.

(** A 2xx response: one row, and the processor returns. *)
Lemma webhookProcessor_ok env job w status text :
  endpoint env (sent env job) = Response status text ->
  ok status = true ->
  webhookProcessor env job w
  = (Return {| success := true; statusCode := status |},
     logged (response_row (job_data job) (attemptsMade job + 1) env status
               (default EmptyString text))
       (called env job w)).
Proof.
  intros Hresp Hok.
  unfold webhookProcessor, try_catch, bind, fetch, sent in *.
  rewrite Hresp. simpl. rewrite Hok. reflexivity.
Qed.

(** Any other response: the row of the [try] block, then the [throw] lands
    in the [catch] block of the same statement, which logs again and
    re-throws. *)
Lemma webhookProcessor_not_ok env job w status text :
  endpoint env (sent env job) = Response status text ->
  ok status = false ->
  let thrown := JsError ("Webhook delivery failed with status "
                         +:+ Js.Number_toString status) in
  webhookProcessor env job w
  = (Throw thrown,
     logged (caught_row (job_data job) (attemptsMade job + 1) env
               (message_or_unknown thrown))
       (logged (response_row (job_data job) (attemptsMade job + 1) env status
                  (default EmptyString text))
          (called env job w))).
Proof.
  intros Hresp Hok.
  unfold webhookProcessor, try_catch, bind, fetch, sent in *.
  rewrite Hresp. simpl. rewrite Hok. reflexivity.
Qed.

(** A rejected [fetch]: the row of the [catch] block only. *)
Lemma webhookProcessor_rejected env job w reason :
  endpoint env (sent env job) = Rejected reason ->
  webhookProcessor env job w
  = (Throw reason,
     logged (caught_row (job_data job) (attemptsMade job + 1) env
               (message_or_unknown reason))
       (called env job w)).
Proof.
  intros Hresp.
  unfold webhookProcessor, try_catch, bind, fetch, sent in *.
  rewrite Hresp. reflexivity.
Qed.

(** Whatever the outcome, an attempt makes exactly one outbound call. *)
Lemma webhookProcessor_network env job w :
  network (webhookProcessor env job w).2 = network w ++ [sent env job].
Proof.
  destruct (endpoint env (sent env job)) as [status text | reason] eqn:Hresp.
  - destruct (ok status) eqn:Hok.
    + by rewrite (webhookProcessor_ok _ _ _ _ _ Hresp Hok).
    + by rewrite (webhookProcessor_not_ok _ _ _ _ _ Hresp Hok).
  - by rewrite (webhookProcessor_rejected _ _ _ _ Hresp).
Qed.

(** The rows an attempt adds to the log: one after a 2xx response and after
    a rejected fetch, two after any other response. *)
Lemma webhookProcessor_row_count env job w :
  length (webhookDelivery (webhookProcessor env job w).2)
  = (length (webhookDelivery w)
     + match endpoint env (sent env job) with
       | Response status _ => if ok status then 1 else 2
       | Rejected _ => 1
       end)%nat.
Proof.
  destruct (endpoint env (sent env job)) as [status text | reason] eqn:Hresp.
  - destruct (ok status) eqn:Hok.
    + rewrite (webhookProcessor_ok _ _ _ _ _ Hresp Hok). simpl.
      by rewrite length_app.
    + rewrite (webhookProcessor_not_ok _ _ _ _ _ Hresp Hok). simpl.
      rewrite !length_app. simpl. lia.
  - rewrite (webhookProcessor_rejected _ _ _ _ Hresp). simpl.
    by rewrite length_app.
Qed.

(** The streaming HMAC object computes the reference HMAC of the signing
    string. *)
Lemma sign_reference (key : string) (timestamp : Z) (p : Payload) :
  sign key timestamp p
  = Js.toString_hex
      (Sha256.hmac (Js.bytes_of_string key)
         (Js.bytes_of_string
            (Js.Number_toString timestamp +:+ "." +:+ JSON_stringify p))).
Proof. reflexivity. Qed.

(** The subscriber's check accepts what the worker sends, under the secret
    of the job. *)
Lemma subscriber_accepts_sent env job :
  subscriber_accepts (secret (job_data job)) (sent env job) = true.
Proof.
  unfold subscriber_accepts, header, sent, webhookRequest. simpl.
  rewrite sign_reference. by rewrite bool_decide_eq_true.
Qed.

(** C3: every attempt makes one POST to the job's url whose body is the JSON
    text of the payload and whose headers are the content type
    application/json, the event name, the signature, the time stamp and the
    fixed user agent; the signature is the hexadecimal HMAC-SHA256, under the
    job's secret, of the time stamp, a dot and that JSON text. *)
Theorem webhookProcessor_signed_post env job w :
  let data := job_data job in
  let timestamp := Js.Number_toString (Date_now env) in
  let body := JSON_stringify (payload data) in
  let signature :=
    Js.toString_hex
      (Sha256.hmac (Js.bytes_of_string (secret data))
         (Js.bytes_of_string (timestamp +:+ "." +:+ body))) in
  network (webhookProcessor env job w).2
  = network w
    ++ [ {| req_url := url data;
            req_method := "POST";
            req_headers :=
              [ ("Content-Type", "application/json");
                ("X-Webhook-Event", event data);
                ("X-Webhook-Signature", signature);
                ("X-Webhook-Timestamp", timestamp);
                ("User-Agent", "Enterprise-SaaS-Webhook/1.0") ];
            req_body := body |} ].
Proof. intros. rewrite webhookProcessor_network. reflexivity. Qed.


End WorkerFacts.

(** ** The retry loop *)

Section RetryFacts.
Context `{Runtime}.

Lemma attempt_loop_unfold retries envs job w :
  attempt_loop retries envs job w
  = let ordinal := attemptsMade job + 1 in
    match webhookProcessor (envs ordinal) job w with
    | (Return _, w') =>
        ({| run_ordinals := [ordinal]; run_delays := [];
            run_reported := false; run_state := SUCCEEDED |}, w')
    | (Throw _, w') =>
        let job' := failed_once job in
        let reported := on_failed_reports_exhausted (Some job') in
        match retries with
        | S retries' =>
            let (rest, w'') := attempt_loop retries' envs job' w' in
            ({| run_ordinals := ordinal :: run_ordinals rest;
                run_delays := backoff_delay (job_opts job) (attemptsMade job')
                              :: run_delays rest;
                run_reported := reported || run_reported rest;
                run_state := run_state rest |}, w'')
        | O =>
            ({| run_ordinals := [ordinal]; run_delays := [];
                run_reported := reported; run_state := EXHAUSTED |}, w')
        end
    end.
Proof. destruct retries; reflexivity. Qed.

(** The ordinals of a run are consecutive, starting one above the attempts
    already made; there is one delay per retry, the k-th being the backoff
    after k failures; a run that ends exhausted used every retry. *)
Lemma attempt_loop_trace retries envs job w :
  let r := (attempt_loop retries envs job w).1 in
  exists k : nat,
    (k <= retries)%nat
    /\ run_ordinals r
       = map (fun i => attemptsMade job + 1 + Z.of_nat i) (seq 0 (S k))
    /\ run_delays r
       = map (fun i => backoff_delay (job_opts job) (attemptsMade job + 1 + Z.of_nat i))
           (seq 0 k)
    /\ (run_state r = EXHAUSTED -> k = retries)
    /\ (run_state r = EXHAUSTED ->
        5 <= attemptsMade job + 1 + Z.of_nat retries -> run_reported r = true).
Proof.
  revert job w. induction retries as [| retries IH]; intros job w r; subst r;
    rewrite attempt_loop_unfold; cbv zeta;
    destruct (webhookProcessor _ job w) as [[ret | thrown] w'].
  - exists 0%nat. simpl. split_and!; [lia | f_equal; lia | done | done | done].
  - exists 0%nat. simpl. split_and!; [lia | f_equal; lia | done | done |].
    intros _ Hfive. apply Z.leb_le. lia.
  - exists 0%nat. simpl. split_and!; [lia | f_equal; lia | done | done | done].
  - specialize (IH (failed_once job) w').
    destruct (attempt_loop retries envs (failed_once job) w') as [rest w''].
    destruct IH as (k & Hk & Hord & Hdel & Hstate & Hrep). simpl in *.
    exists (S k). split_and!.
    + lia.
    + rewrite Hord. cbn [seq map]. f_equal; [lia |]. f_equal; [lia |].
      rewrite <- !seq_shift, !map_map. apply map_ext. intros i. lia.
    + rewrite Hdel. cbn [seq map]. f_equal; [f_equal; lia |].
      rewrite <- !seq_shift, !map_map. apply map_ext. intros i. f_equal. lia.
    + intros Hex. f_equal. by apply Hstate.
    + intros Hex Hfive. rewrite Hrep; [apply orb_true_r | done | lia].
Qed.

End RetryFacts.

(** ** The store *)

Section StoreFacts.
Context `{Runtime}.

(** Filtering the rows of a table and listing the filtered table give the
    same rows. *)
Lemma filter_map_to_list {A} (P : string * A -> Prop) `{!forall x, Decision (P x)}
    (m : gmap string A) :
  filter P (map_to_list m) ≡ₚ map_to_list (filter P m).
Proof.
  rewrite map_filter_alt. symmetry. apply map_to_list_to_map.
  eapply sublist_NoDup; [apply (NoDup_fst_map_to_list m) |].
  apply fmap_sublist, sublist_filter.
Qed.

Lemma length_filter_map_to_list {A} (P : string * A -> Prop) `{!forall x, Decision (P x)}
    (m : gmap string A) :
  length (filter P (map_to_list m)) = size (filter P m).
Proof. by rewrite filter_map_to_list, length_map_to_list. Qed.

(** Setters commute with the projections. *)
Lemma set_webhookQueue_jobs_app (js1 js2 : list Job) (w : World) :
  set_webhookQueue_jobs (fun q => q ++ js2) (set_webhookQueue_jobs (fun q => q ++ js1) w)
  = set_webhookQueue_jobs (fun q => q ++ js1 ++ js2) w.
Proof. unfold set_webhookQueue_jobs; simpl. f_equal. by rewrite app_assoc. Qed.

Lemma set_webhookQueue_jobs_nil (w : World) :
  set_webhookQueue_jobs (fun q => q ++ []) w = w.
Proof. destruct w. unfold set_webhookQueue_jobs; simpl. by rewrite app_nil_r. Qed.

End StoreFacts.

(** ** The dispatcher *)

Section DispatchFacts.
Context `{Runtime}.

(** Adding the jobs of a list of snapshots one after the other. *)
Lemma mapM_addWebhookJob {A} (f : A -> WebhookJobData) (l : list A) (w : World) :
  mapM (fun a => addWebhookJob (f a)) l w
  = (Return (map (fun a => new_job ("webhook-" +:+ event (f a)) (f a)) l),
     set_webhookQueue_jobs
       (fun q => q ++ map (fun a => new_job ("webhook-" +:+ event (f a)) (f a)) l) w).
Proof.
  revert w. induction l as [| a l IH]; intros w.
  - simpl. unfold ret. by rewrite set_webhookQueue_jobs_nil.
  - cbn [mapM map]. unfold bind at 1. unfold addWebhookJob at 1, webhookQueue_add.
    unfold bind at 1. rewrite IH. unfold ret.
    by rewrite set_webhookQueue_jobs_app.
Qed.

(** What a call computes. *)
Lemma triggerWebhooks_eq (eventData : WebhookEvent) (w : World) :
  let event := we_event eventData in
  let snapshot_of (webhook : string * WebhookSubscription) :=
    {| webhookId := webhook.1;
       event := event;
       url := sub_url webhook.2;
       secret := sub_secret webhook.2;
       payload := we_payload eventData |} in
  let webhooks :=
    filter (is_subscribed (we_tenantId eventData) event)
      (map_to_list (webhookSubscription w)) in
  triggerWebhooks eventData w
  = if (length webhooks =? 0)%nat
    then (Return {| triggered := 0 |}, w)
    else (Return {| triggered := Z.of_nat (length webhooks) |},
          set_webhookQueue_jobs
            (fun q => q ++ map (fun a => new_job ("webhook-" +:+ event) (snapshot_of a))
                            webhooks) w).
Proof.
  intros event snapshot_of webhooks.
  unfold triggerWebhooks, webhookSubscription_findMany_subscribed, gets.
  unfold bind at 1. fold event. fold webhooks.
  destruct (length webhooks =? 0)%nat; [reflexivity |].
  unfold bind. rewrite (mapM_addWebhookJob snapshot_of). reflexivity.
Qed.

(** C2: the count returned is the number of the tenant's active subscriptions
    that have the event; the queue grows by exactly the jobs of these
    subscriptions, one each, carrying the subscription's id, url and secret
    and the event and payload of the call; nothing else changes, and without a
    match nothing changes at all. *)
Theorem triggerWebhooks_fan_out (eventData : WebhookEvent) (w : World) :
  let event := we_event eventData in
  let tenantId := we_tenantId eventData in
  let payload := we_payload eventData in
  let matching := filter (is_subscribed tenantId event) (webhookSubscription w) in
  let job_for (webhook : string * WebhookSubscription) :=
    new_job ("webhook-" +:+ event)
      {| webhookId := webhook.1;
         event := event;
         url := sub_url webhook.2;
         secret := sub_secret webhook.2;
         payload := payload |} in
  let result := triggerWebhooks eventData w in
  result.1 = Return {| triggered := Z.of_nat (size matching) |}
  /\ (exists jobs,
        webhookQueue_jobs result.2 = webhookQueue_jobs w ++ jobs
        /\ jobs ≡ₚ map job_for (map_to_list matching)
        /\ length jobs = size matching)
  /\ webhookSubscription result.2 = webhookSubscription w
  /\ webhookDelivery result.2 = webhookDelivery w
  /\ tenantPlan result.2 = tenantPlan w
  /\ network result.2 = network w
  /\ (size matching = 0%nat -> result = (Return {| triggered := 0 |}, w)).
Proof.
  intros event tenantId payload matching job_for result.
  pose proof (length_filter_map_to_list (is_subscribed tenantId event)
                (webhookSubscription w)) as Hlen.
  pose proof (filter_map_to_list (is_subscribed tenantId event)
                (webhookSubscription w)) as Hperm.
  fold matching in Hlen, Hperm.
  subst result. rewrite triggerWebhooks_eq. cbv zeta.
  fold event tenantId payload.
  set (webhooks := filter (is_subscribed tenantId event)
                     (map_to_list (webhookSubscription w))) in *.
  destruct (length webhooks =? 0)%nat eqn:Hzero.
  - apply Nat.eqb_eq in Hzero. rewrite <- Hlen, Hzero. simpl.
    split_and!; try done.
    exists []. rewrite app_nil_r. split_and!; try done.
    apply length_zero_iff_nil in Hzero. rewrite Hzero in Hperm.
    by rewrite <- Hperm.
  - apply Nat.eqb_neq in Hzero. rewrite <- Hlen. simpl.
    split_and!; try done.
    eexists. split; [reflexivity |]. split; [| by rewrite length_map].
    fold job_for. by rewrite Hperm.
Qed.

End DispatchFacts.

(** ** The registry *)

Section RegistryFacts.
Context `{Runtime}.

Lemma getWebhook_eq (id tenantId : string) (w : World) :
  getWebhook id tenantId w
  = match webhookSubscription w !! id with
    | Some row =>
        if decide (sub_tenantId row = tenantId)
        then (Return (id, row), w)
        else (Throw not_found, w)
    | None => (Throw not_found, w)
    end.
Proof.
  unfold getWebhook, bind, webhookSubscription_findFirst, gets.
  destruct (webhookSubscription w !! id) as [row |]; [| reflexivity].
  destruct (decide (sub_tenantId row = tenantId)); reflexivity.
Qed.

Lemma getWebhook_found (id tenantId : string) (w : World) (row : WebhookSubscription) :
  webhookSubscription w !! id = Some row -> sub_tenantId row = tenantId ->
  getWebhook id tenantId w = (Return (id, row), w).
Proof.
  intros Hrow Hten. rewrite getWebhook_eq, Hrow. by rewrite decide_True.
Qed.

Lemma getWebhook_not_found (id tenantId : string) (w : World) :
  ~ belongs_to w tenantId id -> getWebhook id tenantId w = (Throw not_found, w).
Proof.
  intros Hnot. rewrite getWebhook_eq.
  destruct (webhookSubscription w !! id) as [row |] eqn:Hrow; [| reflexivity].
  destruct (decide (sub_tenantId row = tenantId)) as [Hten |]; [| reflexivity].
  exfalso. apply Hnot. by exists row.
Qed.

Lemma getWebhook_returns (id tenantId : string) (w w' : World) webhook :
  getWebhook id tenantId w = (Return webhook, w') ->
  w' = w /\ webhook.1 = id /\ webhookSubscription w !! id = Some webhook.2
  /\ sub_tenantId webhook.2 = tenantId.
Proof.
  rewrite getWebhook_eq.
  destruct (webhookSubscription w !! id) as [row |] eqn:Hrow; [| done].
  destruct (decide (sub_tenantId row = tenantId)) as [Hten |]; [| done].
  intros [= <- <-]. done.
Qed.

(** Paging returns rows of the page's source only. *)
Lemma skip_take_subseteq {A} (skip take : Z) (rows : list A) :
  skip_take skip take rows ⊆ rows.
Proof.
  unfold skip_take. intros x Hx.
  destruct (0 <=? take).
  - eapply elem_of_sublist; [exact Hx |].
    etrans; [apply sublist_take | apply sublist_drop].
  - apply list_elem_of_In, in_rev, list_elem_of_In in Hx.
    apply list_elem_of_In, in_rev, list_elem_of_In.
    eapply elem_of_sublist; [exact Hx |].
    etrans; [apply sublist_take | apply sublist_drop].
Qed.

Lemma webhookDelivery_findMany_rows (id : string) (skip take : Z) (w w' : World) rows :
  webhookDelivery_findMany id skip take w = (Return rows, w') ->
  w' = w /\ forall r, r ∈ rows -> dlv_webhookId r = id /\ r ∈ webhookDelivery w.
Proof.
  unfold webhookDelivery_findMany, throw, gets.
  destruct (skip <? 0); [done |].
  intros [= <- <-]. split; [done |]. intros r Hr.
  apply skip_take_subseteq in Hr.
  unfold orderBy_createdAt_desc in Hr. rewrite merge_sort_Permutation in Hr.
  by apply list_elem_of_filter in Hr.
Qed.

(** C6: for a subscription that is absent or another tenant's, get, update,
    delete and the listing of deliveries all throw NotFound (status 404, not
    403) and leave the world as it is; they return only for a subscription
    of the caller's tenant, and the listing then returns only rows of the
    delivery table that carry this subscription's id. *)
Theorem registry_is_tenant_scoped (w : World) (tenantId id : string)
    (now : Z) (input : UpdateWebhookInput) (page limit : Z) :
  (~ belongs_to w tenantId id ->
     getWebhook id tenantId w = (Throw not_found, w)
     /\ updateWebhook now id tenantId input w = (Throw not_found, w)
     /\ deleteWebhook id tenantId w = (Throw not_found, w)
     /\ getWebhookDeliveries id tenantId page limit w = (Throw not_found, w))
  /\ not_found = AppError NotFoundError "Webhook not found"
  /\ statusCode_of NotFoundError = 404
  /\ (forall webhook w',
        getWebhook id tenantId w = (Return webhook, w') -> belongs_to w tenantId id)
  /\ (forall webhook w',
        updateWebhook now id tenantId input w = (Return webhook, w') ->
        belongs_to w tenantId id)
  /\ (forall w', deleteWebhook id tenantId w = (Return tt, w') -> belongs_to w tenantId id)
  /\ (forall rows total w',
        getWebhookDeliveries id tenantId page limit w = (Return (rows, total), w') ->
        belongs_to w tenantId id
        /\ forall r, r ∈ rows -> dlv_webhookId r = id /\ r ∈ webhookDelivery w)
  /\ (belongs_to w tenantId id ->
        (exists row,
           getWebhook id tenantId w = (Return (id, row), w)
           /\ sub_tenantId row = tenantId)
        /\ (deleteWebhook id tenantId w).1 = Return tt
        /\ (0 <= (page - 1) * limit ->
            exists rows total,
              getWebhookDeliveries id tenantId page limit w = (Return (rows, total), w))).
Proof.
  assert (Hdec : belongs_to w tenantId id \/ ~ belongs_to w tenantId id).
  { unfold belongs_to.
    destruct (webhookSubscription w !! id) as [row |] eqn:Hrow.
    - destruct (decide (sub_tenantId row = tenantId)); [left; eauto |].
      right. intros (row' & [= <-] & ?). done.
    - right. intros (row' & [=] & ?). }
  split_and!; try done.
  - intros Hnot. pose proof (getWebhook_not_found _ _ _ Hnot) as Hget.
    unfold updateWebhook, deleteWebhook, getWebhookDeliveries, bind.
    by rewrite Hget.
  - intros webhook w' Hret. destruct Hdec as [| Hnot]; [done |].
    by rewrite (getWebhook_not_found _ _ _ Hnot) in Hret.
  - intros webhook w' Hret. destruct Hdec as [| Hnot]; [done |].
    unfold updateWebhook, bind in Hret.
    by rewrite (getWebhook_not_found _ _ _ Hnot) in Hret.
  - intros w' Hret. destruct Hdec as [| Hnot]; [done |].
    unfold deleteWebhook, bind in Hret.
    by rewrite (getWebhook_not_found _ _ _ Hnot) in Hret.
  - intros rows total w' Hret.
    destruct Hdec as [Hyes | Hnot].
    + split; [done |].
      destruct Hyes as (row & Hrow & Hten).
      unfold getWebhookDeliveries in Hret. unfold bind at 1 in Hret.
      rewrite (getWebhook_found _ _ _ _ Hrow Hten) in Hret.
      unfold bind at 1 in Hret.
      destruct (webhookDelivery_findMany id ((page - 1) * limit) limit w)
        as [[found | thrown] w1] eqn:Hfind; [| done].
      apply webhookDelivery_findMany_rows in Hfind as [-> Hrows].
      unfold bind, webhookDelivery_count, gets, ret in Hret.
      injection Hret as <- _ _. exact Hrows.
    + unfold getWebhookDeliveries, bind in Hret.
      by rewrite (getWebhook_not_found _ _ _ Hnot) in Hret.
  - intros (row & Hrow & Hten).
    pose proof (getWebhook_found _ _ _ _ Hrow Hten) as Hget.
    split_and!.
    + by exists row.
    + unfold deleteWebhook, bind. rewrite Hget.
      unfold webhookSubscription_delete. simpl. by rewrite Hrow.
    + intros Hskip. unfold getWebhookDeliveries, bind. rewrite Hget.
      unfold webhookDelivery_findMany.
      assert (((page - 1) * limit <? 0) = false) as -> by (apply Z.ltb_ge; lia).
      unfold gets, webhookDelivery_count, gets, ret. eauto.
Qed.

End RegistryFacts.

(** ** Creating a subscription *)

Section CreateFacts.
Context `{Runtime}.

(** The number of active subscriptions of a tenant. *)
Lemma webhookSubscription_count_active_eq (tenantId : string) (w : World) :
  webhookSubscription_count_active tenantId w
  = (Return (Z.of_nat (size (filter (is_active_of tenantId) (webhookSubscription w)))), w).
Proof.
  unfold webhookSubscription_count_active, gets.
  by rewrite length_filter_map_to_list.
Qed.

(** What a call computes, check after check. *)
Lemma createWebhook_eq (env : CreateEnv) (tenantId userId : string)
    (input : CreateWebhookInput) (w : World) :
  let store :=
    webhookSubscription_create (env_newId env)
      (created_row env tenantId userId input (new_secret env)) w in
  createWebhook env tenantId userId input w
  = if URL_parses (ci_url input)
    then if (length (ci_events input) =? 0)%nat
         then (Throw (AppError ValidationError "At least one event must be specified"), w)
         else match tenantPlan w !! tenantId with
              | Some plan =>
                  if plan_maxWebhooks plan
                     <=? Z.of_nat (size (filter (is_active_of tenantId)
                                           (webhookSubscription w)))
                  then (Throw (limit_reached plan), w)
                  else store
              | None => store
              end
    else (Throw (AppError ValidationError "Invalid webhook URL"), w).
Proof.
  intros store. subst store. unfold createWebhook.
  unfold bind at 1. destruct (URL_parses (ci_url input)); [| reflexivity].
  unfold ret at 1. unfold bind at 1.
  destruct (length (ci_events input) =? 0)%nat; [reflexivity |].
  unfold ret at 1. unfold bind at 1. unfold tenantPlan_findUnique, gets.
  destruct (tenantPlan w !! tenantId) as [plan |]; [| reflexivity].
  unfold bind at 1. unfold bind at 1.
  rewrite webhookSubscription_count_active_eq.
  destruct (plan_maxWebhooks plan <=? _); reflexivity.
Qed.

Lemma webhookSubscription_create_returns (newId : string) (row : WebhookSubscription)
    (w w' : World) webhook :
  webhookSubscription_create newId row w = (Return webhook, w') ->
  webhook = (newId, row)
  /\ webhookSubscription w !! newId = None
  /\ w' = set_webhookSubscription (insert newId row) w.
Proof.
  unfold webhookSubscription_create.
  destruct (webhookSubscription w !! newId); [done |].
  by intros [= <- <-].
Qed.

Lemma new_secret_shape (env : CreateEnv) :
  String.length (new_secret env) = 64%nat
  /\ Js.string_forallb Js.is_hex_digit (new_secret env) = true.
Proof.
  unfold new_secret. split; [| apply toString_hex_digits].
  by rewrite toString_hex_length, randomBytes_length.
Qed.

(** C7: an unparseable url and an empty events array are each rejected with
    a validation error, and nothing is stored; when a subscription is created
    its secret is the hexadecimal text of 32 bytes of the entropy source, 64
    hexadecimal digits, and the subscription returned, which carries it, is
    the one stored. *)
Theorem createWebhook_validates_and_issues_secret (env : CreateEnv)
    (tenantId userId : string) (input : CreateWebhookInput) (w : World) :
  (URL_parses (ci_url input) = false ->
     createWebhook env tenantId userId input w
     = (Throw (AppError ValidationError "Invalid webhook URL"), w))
  /\ (ci_events input = [] ->
      exists message,
        createWebhook env tenantId userId input w
        = (Throw (AppError ValidationError message), w))
  /\ (forall webhook w',
        createWebhook env tenantId userId input w = (Return webhook, w') ->
        sub_secret webhook.2
        = Js.toString_hex (Crypto.randomBytes (env_entropy env) 32)
        /\ String.length (sub_secret webhook.2) = 64%nat
        /\ Js.string_forallb Js.is_hex_digit (sub_secret webhook.2) = true
        /\ webhookSubscription w' !! webhook.1 = Some webhook.2
        /\ URL_parses (ci_url input) = true
        /\ ci_events input <> []).
Proof.
  rewrite createWebhook_eq. cbv zeta. split_and!.
  - by intros ->.
  - intros ->. simpl. destruct (URL_parses (ci_url input)); eauto.
  - intros webhook w' Hret.
    destruct (URL_parses (ci_url input)); [| done].
    destruct (length (ci_events input) =? 0)%nat eqn:Hlen; [done |].
    assert (Hstore : webhookSubscription_create (env_newId env)
                       (created_row env tenantId userId input (new_secret env)) w
                     = (Return webhook, w')).
    { destruct (tenantPlan w !! tenantId) as [plan |]; [| done].
      by destruct (plan_maxWebhooks plan <=? _). }
    apply webhookSubscription_create_returns in Hstore as (-> & Hfresh & ->).
    simpl. destruct (new_secret_shape env) as [Hlength Hdigits].
    split_and!; try done.
    + apply lookup_insert_eq.
    + intros Hnil. by rewrite Hnil in Hlen.
Qed.


End CreateFacts.

(** ** Deleting a subscription *)

Section DeleteFacts.
Context `{Runtime}.

Lemma deleteWebhook_eq (id tenantId : string) (w : World) :
  deleteWebhook id tenantId w
  = match webhookSubscription w !! id with
    | Some row =>
        if decide (sub_tenantId row = tenantId)
        then (Return tt, set_webhookSubscription (delete id) w)
        else (Throw not_found, w)
    | None => (Throw not_found, w)
    end.
Proof.
  unfold deleteWebhook, bind. rewrite getWebhook_eq.
  destruct (webhookSubscription w !! id) as [row |] eqn:Hrow; [| reflexivity].
  destruct (decide (sub_tenantId row = tenantId)); [| reflexivity].
  unfold webhookSubscription_delete. simpl. by rewrite Hrow.
Qed.

(** The worker never reads the subscription table: whatever is done to the
    table, an attempt ends the same way and has the same effects. *)
Lemma webhookProcessor_ignores_subscriptions env job w
    (f : gmap string WebhookSubscription -> gmap string WebhookSubscription) :
  webhookProcessor env job (set_webhookSubscription f w)
  = ((webhookProcessor env job w).1,
     set_webhookSubscription f (webhookProcessor env job w).2).
Proof.
  destruct (endpoint env (sent env job)) as [status text | reason] eqn:Hresp.
  - destruct (ok status) eqn:Hok.
    + by rewrite !(webhookProcessor_ok _ _ _ _ _ Hresp Hok).
    + by rewrite !(webhookProcessor_not_ok _ _ _ _ _ Hresp Hok).
  - by rewrite !(webhookProcessor_rejected _ _ _ _ Hresp).
Qed.

(** C8: deleting a subscription leaves the delivery table, the queue, the
    plans and every other subscription as they were, and takes the
    subscription out when it is the caller's; a job queued for it is then
    processed as before: same outcome, same rows logged, and the request goes
    to the url of the job and verifies under the secret of the job. *)
Theorem deleteWebhook_keeps_log_and_jobs (id tenantId : string) (w : World) :
  let after := (deleteWebhook id tenantId w).2 in
  webhookDelivery after = webhookDelivery w
  /\ webhookQueue_jobs after = webhookQueue_jobs w
  /\ tenantPlan after = tenantPlan w
  /\ network after = network w
  /\ (forall other, other <> id ->
        webhookSubscription after !! other = webhookSubscription w !! other)
  /\ (belongs_to w tenantId id ->
        (deleteWebhook id tenantId w).1 = Return tt
        /\ webhookSubscription after = delete id (webhookSubscription w))
  /\ (forall env job,
        (webhookProcessor env job after).1 = (webhookProcessor env job w).1
        /\ webhookDelivery (webhookProcessor env job after).2
           = webhookDelivery (webhookProcessor env job w).2
        /\ network (webhookProcessor env job after).2
           = network w ++ [webhookRequest (job_data job) (Date_now env)]
        /\ req_url (webhookRequest (job_data job) (Date_now env)) = url (job_data job)
        /\ subscriber_accepts (secret (job_data job))
             (webhookRequest (job_data job) (Date_now env)) = true).
Proof.
  intros after. subst after. rewrite deleteWebhook_eq.
  assert (Hjob : forall env job,
    req_url (webhookRequest (job_data job) (Date_now env)) = url (job_data job)
    /\ subscriber_accepts (secret (job_data job))
         (webhookRequest (job_data job) (Date_now env)) = true).
  { intros env job. split; [reflexivity | apply subscriber_accepts_sent]. }
  assert (Hkeep : forall env job,
    (webhookProcessor env job w).1 = (webhookProcessor env job w).1
    /\ webhookDelivery (webhookProcessor env job w).2
       = webhookDelivery (webhookProcessor env job w).2
    /\ network (webhookProcessor env job w).2
       = network w ++ [webhookRequest (job_data job) (Date_now env)]).
  { intros env job. split_and!; [done | done | apply webhookProcessor_network]. }
  destruct (webhookSubscription w !! id) as [row |] eqn:Hrow.
  - destruct (decide (sub_tenantId row = tenantId)) as [Hten | Hten].
    + cbn [fst snd]. split_and!; try done.
      * intros other Hother. simpl. by rewrite lookup_delete_ne.
      * intros env job. rewrite webhookProcessor_ignores_subscriptions.
        cbn [fst snd]. destruct (Hjob env job), (Hkeep env job) as (_ & _ & Hnet).
        split_and!; try done.
    + cbn [fst snd]. split_and!; try done.
      * intros (row' & Hrow' & Hten'). congruence.
      * intros env job. destruct (Hjob env job), (Hkeep env job) as (_ & _ & Hnet).
        split_and!; done.
  - cbn [fst snd]. split_and!; try done.
    + intros (row' & Hrow' & _). congruence.
    + intros env job. destruct (Hjob env job), (Hkeep env job) as (_ & _ & Hnet).
      split_and!; done.
Qed.

End DeleteFacts.

(** ** Updating a subscription *)

Section UpdateFacts.
Context `{Runtime}.

Lemma updateWebhook_eq (now : Z) (id tenantId : string) (input : UpdateWebhookInput)
    (w : World) :
  updateWebhook now id tenantId input w
  = match webhookSubscription w !! id with
    | Some row =>
        if decide (sub_tenantId row = tenantId)
        then if url_refused input
             then (Throw (AppError ValidationError "Invalid webhook URL"), w)
             else if events_refused input
                  then (Throw (AppError ValidationError
                                 "At least one event must be specified"), w)
                  else (Return (id, apply_data input now row),
                        set_webhookSubscription (insert id (apply_data input now row)) w)
        else (Throw not_found, w)
    | None => (Throw not_found, w)
    end.
Proof.
  unfold updateWebhook. unfold bind at 1. rewrite getWebhook_eq.
  destruct (webhookSubscription w !! id) as [row |] eqn:Hrow; [| reflexivity].
  destruct (decide (sub_tenantId row = tenantId)); [| reflexivity].
  unfold url_refused, events_refused, bind, ret, throw.
  destruct (ui_url input) as [u |];
    [destruct (truthy u); [destruct (URL_parses u) |] |];
    cbn [andb negb]; try reflexivity;
    (destruct (ui_events input) as [es |]; [destruct (length es =? 0)%nat |]);
    try reflexivity;
    unfold webhookSubscription_update; cbn [fst]; by rewrite Hrow.
Qed.


(** X21: a url that is supplied, not empty and unparseable is refused, and so
    is an empty events array, with a validation error; the world stays as it
    was. *)
Lemma updateWebhook_refuses (now : Z) (id tenantId : string) (input : UpdateWebhookInput)
    (w : World) :
  belongs_to w tenantId id ->
  (exists u, ui_url input = Some u /\ u <> EmptyString /\ URL_parses u = false)
  \/ ui_events input = Some [] ->
  exists message,
    updateWebhook now id tenantId input w
    = (Throw (AppError ValidationError message), w).
Proof.
  intros (row & Hrow & Hten) Hbad. rewrite updateWebhook_eq, Hrow.
  rewrite decide_True by done.
  destruct Hbad as [(u & Hu & Hne & Hparse) | Hes].
  - unfold url_refused, truthy. rewrite Hu, Hparse.
    rewrite bool_decide_eq_false_2 by done. simpl. eauto.
  - destruct (url_refused input); [eauto |].
    unfold events_refused. rewrite Hes. simpl. eauto.
Qed.

(** Behind the schema of the route an empty url never reaches the service,
    provided zod refuses it. *)
Lemma patch_webhook_refuses_empty_url (now : Z) (id tenantId : string)
    (body : UpdateWebhookInput) (w : World) :
  z_string_url EmptyString = false ->
  ui_url body = Some EmptyString ->
  patch_webhook now id tenantId body w
  = (Throw (AppError ValidationError "Validation failed"), w).
Proof.
  intros Hzod Hurl. unfold patch_webhook, updateWebhookSchema.
  by rewrite Hurl, Hzod.
Qed.

End UpdateFacts.

(** ** The retry budget of a webhook job *)

Section BudgetFacts.
Context `{Runtime}.

(** C5 (as amended): a job of the webhook queue is attempted at most five
    times, with ordinals 1, 2, 3, ... in order; the delays before attempts 2
    to 5 are 5 s, 10 s, 20 s and 40 s; a run ends either with a success or
    exhausted after exactly five failed attempts, which the failed-handler
    reports; there is no sixth attempt. *)
Theorem webhook_job_retry_budget (name : string) (data : WebhookJobData)
    (envs : Z -> AttemptEnv) (w : World) :
  let r := (run_job envs (new_job name data) w).1 in
  exists k : nat,
    (k <= 4)%nat
    /\ run_ordinals r = take (S k) [1; 2; 3; 4; 5]
    /\ run_delays r = take k [5000; 10000; 20000; 40000]
    /\ (run_state r = EXHAUSTED -> k = 4%nat /\ run_reported r = true)
    /\ (length (run_ordinals r) <= 5)%nat
    /\ 6 ∉ run_ordinals r.
Proof.
  intros r. subst r. unfold run_job.
  change (Z.to_nat (attempts (job_opts (new_job name data)) - 1
                    - attemptsMade (new_job name data))) with 4%nat.
  destruct (attempt_loop_trace 4 envs (new_job name data) w)
    as (k & Hk & Hord & Hdel & Hstate & Hrep).
  exists k. rewrite Hord, Hdel.
  assert (Hcases : (k = 0 \/ k = 1 \/ k = 2 \/ k = 3 \/ k = 4)%nat) by lia.
  split_and!.
  - done.
  - destruct Hcases as [-> | [-> | [-> | [-> | ->]]]]; reflexivity.
  - destruct Hcases as [-> | [-> | [-> | [-> | ->]]]]; reflexivity.
  - intros Hex. split; [by apply Hstate |]. apply Hrep; [done |]. simpl. lia.
  - rewrite length_map, length_seq. lia.
  - intros Hsix. apply list_elem_of_fmap in Hsix as (i & Hi & Hin).
    apply elem_of_seq in Hin. simpl in Hi. lia.
Qed.

End BudgetFacts.

(** ** The sample world *)

Module Examples.
Import Sample.

(** C1: one attempt that is answered with a 500 leaves two rows in the log,
    one written by the [try] block with the status and one by the [catch]
    block, which catches the block's own [throw].  So when the endpoint
    answers 500, 500 and then 200, the job is attempted three times and the
    log gets five rows, with attempts 1, 1, 2, 2, 3. *)
Theorem flaky_endpoint_logs_five_rows :
  map summary (webhookDelivery (webhookProcessor (flaky 1) job empty_world).2)
  = [ (1, Some 500, Some "HTTP 500", false);
      (1, None, Some "Webhook delivery failed with status 500", false) ]
  /\ run_ordinals (run_job flaky job empty_world).1 = [1; 2; 3]
  /\ run_state (run_job flaky job empty_world).1 = SUCCEEDED
  /\ map summary (webhookDelivery (run_job flaky job empty_world).2)
     = [ (1, Some 500, Some "HTTP 500", false);
         (1, None, Some "Webhook delivery failed with status 500", false);
         (2, Some 500, Some "HTTP 500", false);
         (2, None, Some "Webhook delivery failed with status 500", false);
         (3, Some 200, None, true) ]
  /\ length (webhookDelivery (run_job flaky job empty_world).2) = 5%nat.
Proof. vm_compute. auto 10. Qed.

(** An unreachable endpoint leaves one row per attempt. *)
Example unreachable_endpoint_rows :
  map summary (webhookDelivery (run_job unreachable job empty_world).2)
  = [ (1, None, Some "fetch failed", false); (2, None, Some "fetch failed", false);
      (3, None, Some "fetch failed", false); (4, None, Some "fetch failed", false);
      (5, None, Some "fetch failed", false) ].
Proof. vm_compute. reflexivity. Qed.

(** C5 (as stated): for an endpoint that always fails the retries wait 5 s,
    10 s, 20 s and 40 s; the fifth attempt is the last, so no delay of 80 s
    is ever waited. *)
Lemma broken_endpoint_never_waits_80s :
  (run_job broken job empty_world).1
  = {| run_ordinals := [1; 2; 3; 4; 5];
       run_delays := [5000; 10000; 20000; 40000];
       run_reported := true;
       run_state := EXHAUSTED |}
  /\ run_delays (run_job broken job empty_world).1
     <> [5000; 10000; 20000; 40000; 80000]
  /\ 80000 ∉ run_delays (run_job broken job empty_world).1.
Proof.
  assert (Hrun : (run_job broken job empty_world).1
                 = {| run_ordinals := [1; 2; 3; 4; 5];
                      run_delays := [5000; 10000; 20000; 40000];
                      run_reported := true;
                      run_state := EXHAUSTED |}) by (vm_compute; reflexivity).
  rewrite Hrun. simpl. split_and!; [done | done |].
  intros Hin. repeat (apply elem_of_cons in Hin as [Heq | Hin]; [done |]).
  by apply not_elem_of_nil in Hin.
Qed.

(** The signature of the sample job at a known time, as computed outside. *)
Example signature_test_vector :
  sign "s3cr3t" 1700000000001 ("{" +:+ dquote +:+ "id" +:+ dquote +:+ ":1}")
  = "56da9f8806507801ed81f7b0af11f916f21d0df712b90d0d3a0ff0b1cd3d2ca1".
Proof. vm_compute. reflexivity. Qed.



(** The tenant globex has no plan: its subscription is created, with a secret
    of 64 hexadecimal digits. *)
Example globex_is_not_limited :
  exists row,
    (createWebhook create_env "globex" "u9" good_input world).1 = Return ("wh4", row)
    /\ sub_secret row
       = "abababababababababababababababababababababababababababababababab"
    /\ String.length (sub_secret row) = 64%nat.
Proof. eexists. vm_compute. auto. Qed.

(** The tenant acme asks for the deliveries of a subscription of globex. *)
Example foreign_deliveries_not_found :
  (getWebhookDeliveries "wh3" "acme" 1 50 world).1 = Throw not_found
  /\ (getWebhookDeliveries "wh1" "acme" 1 50 world).1
     = Return ([row "wh1" "user.created" 1 2000], 1).
Proof. vm_compute. auto. Qed.

(** One event of acme: the active subscription gets a job, the paused one and
    the other tenant's do not. *)
Example user_created_fans_out_once :
  (triggerWebhooks {| we_event := "user.created"; we_tenantId := "acme";
                      we_payload := "{}" |} world).1
  = Return {| triggered := 1 |}
  /\ map (fun j => webhookId (job_data j))
       (webhookQueue_jobs
          (triggerWebhooks {| we_event := "user.created"; we_tenantId := "acme";
                              we_payload := "{}" |} world).2)
     = ["wh1"]
  /\ triggerWebhooks {| we_event := "page.deleted"; we_tenantId := "acme";
                        we_payload := "{}" |} world
     = (Return {| triggered := 0 |}, world).
Proof. vm_compute. auto. Qed.

End Examples.

(** * Further properties *)

(** ** Listing a tenant's subscriptions *)

Section ListingFacts.
Context `{Runtime}.

Lemma listWebhooks_eq (tenantId : string) (page limit : Z) (w : World) :
  listWebhooks tenantId page limit w
  = if (page - 1) * limit <? 0
    then (Throw (PrismaError "PrismaClientValidationError"), w)
    else (Return
            (skip_take ((page - 1) * limit) limit
               (merge_sort newer_subscription_first
                  (filter (fun r => sub_tenantId r.2 = tenantId)
                     (map_to_list (webhookSubscription w)))),
             Z.of_nat (length (filter (fun r => sub_tenantId r.2 = tenantId)
                                 (map_to_list (webhookSubscription w))))),
          w).
Proof.
  unfold listWebhooks, bind, webhookSubscription_findMany_page.
  destruct ((page - 1) * limit <? 0); reflexivity.
Qed.

(** A page is part of its source, row for row. *)
Lemma skip_take_submseteq {A} (skip limit : Z) (rows : list A) :
  skip_take skip limit rows ⊆+ rows.
Proof.
  unfold skip_take. destruct (0 <=? limit).
  - etrans; [apply submseteq_take | apply submseteq_drop].
  - rewrite <- (Permutation_rev (take _ _)).
    etrans; [etrans; [apply submseteq_take | apply submseteq_drop] |].
    apply Permutation_submseteq. symmetry. apply Permutation_rev.
Qed.

Lemma submseteq_keeps_NoDup {A} (l k : list A) : l ⊆+ k -> NoDup k -> NoDup l.
Proof.
  intros Hsub Hk. apply submseteq_Permutation in Hsub as [k' Hk'].
  rewrite Hk' in Hk. by apply NoDup_app in Hk as [? _].
Qed.

Lemma skip_take_length {A} (skip limit : Z) (rows : list A) :
  0 <= limit -> Z.of_nat (length (skip_take skip limit rows)) <= limit.
Proof.
  intros Htake. unfold skip_take.
  assert ((0 <=? limit) = true) as -> by (by apply Z.leb_le).
  rewrite length_take. lia.
Qed.

(** X1: listing a tenant's subscriptions changes nothing, shows only
    subscriptions of that tenant as the table holds them, none twice and at
    most [limit] of them, and counts all of the tenant's subscriptions. *)
Theorem listWebhooks_is_tenant_scoped (tenantId : string) (page limit : Z) (w : World) :
  (listWebhooks tenantId page limit w).2 = w
  /\ forall webhooks total,
       (listWebhooks tenantId page limit w).1 = Return (webhooks, total) ->
       (forall wh, wh ∈ webhooks ->
          webhookSubscription w !! wh.1 = Some wh.2 /\ sub_tenantId wh.2 = tenantId)
       /\ NoDup webhooks.*1
       /\ total = Z.of_nat (size (filter (fun r => sub_tenantId r.2 = tenantId)
                                    (webhookSubscription w)))
       /\ (0 <= limit -> Z.of_nat (length webhooks) <= limit).
Proof.
  rewrite listWebhooks_eq.
  destruct ((page - 1) * limit <? 0); [by split |].
  split; [done |]. intros webhooks total [= <- <-].
  assert (Hsub : skip_take ((page - 1) * limit) limit
                   (merge_sort newer_subscription_first
                      (filter (fun r => sub_tenantId r.2 = tenantId)
                         (map_to_list (webhookSubscription w))))
                 ⊆+ filter (fun r => sub_tenantId r.2 = tenantId)
                      (map_to_list (webhookSubscription w))).
  { etrans; [apply skip_take_submseteq |].
    apply Permutation_submseteq, merge_sort_Permutation. }
  split_and!.
  - intros wh Hin. eapply elem_of_submseteq in Hin; [| exact Hsub].
    apply list_elem_of_filter in Hin as [Hten Hin].
    by apply elem_of_map_to_list' in Hin.
  - eapply submseteq_keeps_NoDup; [apply fmap_submseteq, Hsub |].
    eapply sublist_NoDup; [apply (NoDup_fst_map_to_list (webhookSubscription w)) |].
    apply fmap_sublist, sublist_filter.
  - by rewrite length_filter_map_to_list.
  - apply skip_take_length.
Qed.

End ListingFacts.

(** ** Order and pages *)

Section PagingFacts.
Context `{Runtime}.

Lemma newer_first_trans : Transitive newer_first.
Proof. unfold newer_first. intros a b c ? ?. lia. Qed.

Lemma newer_first_total : Total newer_first.
Proof. unfold newer_first. intros a b. lia. Qed.

Lemma newer_subscription_first_trans : Transitive newer_subscription_first.
Proof. unfold newer_subscription_first. intros a b c ? ?. lia. Qed.

Lemma newer_subscription_first_total : Total newer_subscription_first.
Proof. unfold newer_subscription_first. intros a b. lia. Qed.

(** A page of a sorted list is sorted. *)
Lemma skip_take_sorted {A} (R : relation A) (skip limit : Z) (rows : list A) :
  0 <= limit -> StronglySorted R rows -> StronglySorted R (skip_take skip limit rows).
Proof.
  intros Hlimit Hsorted. unfold skip_take.
  assert ((0 <=? limit) = true) as -> by (by apply Z.leb_le).
  apply (StronglySorted_app_1_l R _ (drop (Z.to_nat limit) (drop (Z.to_nat skip) rows))).
  rewrite take_drop.
  apply (StronglySorted_app_1_r R (take (Z.to_nat skip) rows)).
  by rewrite take_drop.
Qed.

Lemma getWebhookDeliveries_eq (id tenantId : string) (page limit : Z) (w : World) :
  getWebhookDeliveries id tenantId page limit w
  = match webhookSubscription w !! id with
    | Some row =>
        if decide (sub_tenantId row = tenantId)
        then if (page - 1) * limit <? 0
             then (Throw (PrismaError "PrismaClientValidationError"), w)
             else (Return
                     (skip_take ((page - 1) * limit) limit
                        (orderBy_createdAt_desc
                           (filter (fun r => dlv_webhookId r = id) (webhookDelivery w))),
                      Z.of_nat (length (filter (fun r => dlv_webhookId r = id)
                                          (webhookDelivery w)))),
                   w)
        else (Throw not_found, w)
    | None => (Throw not_found, w)
    end.
Proof.
  unfold getWebhookDeliveries. unfold bind at 1. rewrite getWebhook_eq.
  destruct (webhookSubscription w !! id) as [row |]; [| reflexivity].
  destruct (decide (sub_tenantId row = tenantId)); [| reflexivity].
  unfold bind, webhookDelivery_findMany.
  destruct ((page - 1) * limit <? 0); reflexivity.
Qed.

(** X2: with a limit that is not negative, both listings come newest first:
    no row is followed by a row created after it. *)
Theorem listings_are_newest_first (tenantId id : string) (page limit : Z) (w : World) :
  0 <= limit ->
  (forall webhooks total,
     (listWebhooks tenantId page limit w).1 = Return (webhooks, total) ->
     StronglySorted newer_subscription_first webhooks)
  /\ (forall rows total,
        (getWebhookDeliveries id tenantId page limit w).1 = Return (rows, total) ->
        StronglySorted newer_first rows).
Proof.
  intros Hlimit. split.
  - intros webhooks total. rewrite listWebhooks_eq.
    destruct ((page - 1) * limit <? 0); [done |]. intros [= <- _].
    apply skip_take_sorted; [done |].
    apply (@StronglySorted_merge_sort _ _ _ newer_subscription_first_trans
             newer_subscription_first_total).
  - intros rows total. rewrite getWebhookDeliveries_eq.
    destruct (webhookSubscription w !! id) as [row |]; [| done].
    destruct (decide (sub_tenantId row = tenantId)); [| done].
    destruct ((page - 1) * limit <? 0); [done |]. intros [= <- _].
    apply skip_take_sorted; [done |].
    apply (@StronglySorted_merge_sort _ _ _ newer_first_trans newer_first_total).
Qed.


(** [Math.ceil(total / limit)] is the least number of pages that hold
    [total] rows. *)
Lemma ceil_quotient_bounds (total limit : Z) :
  1 <= limit -> 0 <= total ->
  0 <= - ((- total) / limit)
  /\ total <= - ((- total) / limit) * limit
  /\ - ((- total) / limit) * limit < total + limit.
Proof.
  intros Hlimit Htotal.
  pose proof (Z.div_mod (- total) limit ltac:(lia)) as Hdm.
  pose proof (Z.mod_pos_bound (- total) limit ltac:(lia)) as Hmod.
  nia.
Qed.



(** X4: for a limit of at least one and a total that is not negative, the
    totalPages of a paginated response is the least number of pages of that
    size that hold all rows, zero exactly when there are none. *)
Theorem paginatedResponse_totalPages {T} (data : list T) (total page limit : Z) :
  1 <= limit -> 0 <= total ->
  exists meta n,
    res_meta (paginatedResponse data total page limit) = Some meta
    /\ meta_page meta = page /\ meta_limit meta = limit /\ meta_total meta = total
    /\ meta_totalPages meta = Some n
    /\ 0 <= n
    /\ total <= n * limit
    /\ (n - 1) * limit < total
    /\ (n = 0 <-> total = 0).
Proof.
  intros Hlimit Htotal.
  destruct (ceil_quotient_bounds total limit) as (Hn0 & Hcover & Htight); [done | done |].
  eexists. exists (- ((- total) / limit)). simpl.
  unfold Math_ceil_quotient.
  assert ((limit =? 0) = false) as -> by (apply Z.eqb_neq; lia).
  split_and!; try done; nia.
Qed.

End PagingFacts.

(** ** What the registry keeps *)

Section InvariantFacts.
Context `{Runtime}.

(** What a creation that returns has done. *)
Lemma createWebhook_returns (env : CreateEnv) (tenantId userId : string)
    (input : CreateWebhookInput) (w w' : World) webhook :
  createWebhook env tenantId userId input w = (Return webhook, w') ->
  webhook = (env_newId env, created_row env tenantId userId input (new_secret env))
  /\ webhookSubscription w !! env_newId env = None
  /\ w' = set_webhookSubscription (insert (env_newId env) webhook.2) w
  /\ URL_parses (ci_url input) = true
  /\ ci_events input <> [].
Proof.
  rewrite createWebhook_eq. cbv zeta. intros Hret.
  destruct (URL_parses (ci_url input)); [| done].
  destruct (length (ci_events input) =? 0)%nat eqn:Hlen; [done |].
  assert (Hstore : webhookSubscription_create (env_newId env)
                     (created_row env tenantId userId input (new_secret env)) w
                   = (Return webhook, w')).
  { destruct (tenantPlan w !! tenantId) as [plan |]; [| done].
    by destruct (plan_maxWebhooks plan <=? _). }
  apply webhookSubscription_create_returns in Hstore as (-> & Hfresh & ->).
  split_and!; try done. intros Hnil. by rewrite Hnil in Hlen.
Qed.

(** A creation that throws has stored nothing. *)
Lemma createWebhook_throws (env : CreateEnv) (tenantId userId : string)
    (input : CreateWebhookInput) (w w' : World) thrown :
  createWebhook env tenantId userId input w = (Throw thrown, w') -> w' = w.
Proof.
  rewrite createWebhook_eq. cbv zeta. unfold webhookSubscription_create.
  destruct (URL_parses (ci_url input)); [| by intros [= _ <-]].
  destruct (length (ci_events input) =? 0)%nat; [by intros [= _ <-] |].
  destruct (tenantPlan w !! tenantId) as [plan |].
  - destruct (plan_maxWebhooks plan <=? _); [by intros [= _ <-] |].
    destruct (webhookSubscription w !! env_newId env); [by intros [= _ <-] | done].
  - destruct (webhookSubscription w !! env_newId env); [by intros [= _ <-] | done].
Qed.

(** Either way, the table after a creation is the table before, with at most
    the created row more. *)
Lemma createWebhook_table (env : CreateEnv) (tenantId userId : string)
    (input : CreateWebhookInput) (w : World) :
  webhookSubscription (createWebhook env tenantId userId input w).2
  = webhookSubscription w
  \/ (ci_events input <> []
      /\ URL_parses (ci_url input) = true
      /\ webhookSubscription (createWebhook env tenantId userId input w).2
         = <[env_newId env := created_row env tenantId userId input (new_secret env)]>
             (webhookSubscription w)).
Proof.
  destruct (createWebhook env tenantId userId input w) as [[webhook | thrown] w'] eqn:Hrun.
  - apply createWebhook_returns in Hrun as (-> & _ & -> & Hurl & Hev). right. by simpl.
  - apply createWebhook_throws in Hrun as ->. by left.
Qed.

(** The same for an update: the table stays, or the one row is replaced by
    the row with the supplied fields, which passed both checks. *)
Lemma updateWebhook_table (now : Z) (id tenantId : string) (input : UpdateWebhookInput)
    (w : World) :
  webhookSubscription (updateWebhook now id tenantId input w).2 = webhookSubscription w
  \/ exists old,
       webhookSubscription w !! id = Some old
       /\ sub_tenantId old = tenantId
       /\ url_refused input = false
       /\ events_refused input = false
       /\ (updateWebhook now id tenantId input w).1 = Return (id, apply_data input now old)
       /\ webhookSubscription (updateWebhook now id tenantId input w).2
          = <[id := apply_data input now old]> (webhookSubscription w).
Proof.
  rewrite updateWebhook_eq.
  destruct (webhookSubscription w !! id) as [old |] eqn:Hold; [| by left].
  destruct (decide (sub_tenantId old = tenantId)); [| by left].
  destruct (url_refused input) eqn:Hurl; [by left |].
  destruct (events_refused input) eqn:Hev; [by left |].
  right. exists old. by simpl.
Qed.

Lemma deleteWebhook_table (id tenantId : string) (w : World) :
  webhookSubscription (deleteWebhook id tenantId w).2 = webhookSubscription w
  \/ webhookSubscription (deleteWebhook id tenantId w).2 = delete id (webhookSubscription w).
Proof.
  rewrite deleteWebhook_eq.
  destruct (webhookSubscription w !! id) as [row |]; [| by left].
  destruct (decide (sub_tenantId row = tenantId)); [by right | by left].
Qed.

(** X5: if every stored subscription has at least one event, this is still
    so after any creation, update or deletion, whatever the input. *)
Theorem events_stay_nonempty (w : World) :
  events_nonempty w ->
  (forall env tenantId userId input,
     events_nonempty (createWebhook env tenantId userId input w).2)
  /\ (forall now id tenantId input,
        events_nonempty (updateWebhook now id tenantId input w).2)
  /\ (forall id tenantId, events_nonempty (deleteWebhook id tenantId w).2).
Proof.
  unfold events_nonempty. intros Hinv. split_and!.
  - intros env tenantId userId input.
    destruct (createWebhook_table env tenantId userId input w)
      as [-> | (Hev & _ & ->)]; [done |].
    by apply map_Forall_insert_2.
  - intros now id tenantId input.
    destruct (updateWebhook_table now id tenantId input w)
      as [-> | (old & Hold & _ & _ & Hev & _ & ->)]; [done |].
    apply map_Forall_insert_2; [| done].
    unfold apply_data, events_refused in *. simpl.
    destruct (ui_events input) as [es |]; simpl.
    + intros ->. done.
    + by apply (Hinv id old).
  - intros id tenantId.
    destruct (deleteWebhook_table id tenantId w) as [-> | ->]; [done |].
    by apply map_Forall_delete.
Qed.

(** X6: if every stored secret is 64 hexadecimal digits, this is still so
    after any creation, update or deletion; an update never changes the
    secret of the subscription it changes. *)
Theorem secrets_stay_well_formed (w : World) :
  secrets_well_formed w ->
  (forall env tenantId userId input,
     secrets_well_formed (createWebhook env tenantId userId input w).2)
  /\ (forall now id tenantId input,
        secrets_well_formed (updateWebhook now id tenantId input w).2
        /\ sub_secret <$> webhookSubscription (updateWebhook now id tenantId input w).2 !! id
           = sub_secret <$> webhookSubscription w !! id)
  /\ (forall id tenantId, secrets_well_formed (deleteWebhook id tenantId w).2).
Proof.
  unfold secrets_well_formed. intros Hinv. split_and!.
  - intros env tenantId userId input.
    destruct (createWebhook_table env tenantId userId input w)
      as [-> | (_ & _ & ->)]; [done |].
    apply map_Forall_insert_2; [| done]. apply new_secret_shape.
  - intros now id tenantId input.
    destruct (updateWebhook_table now id tenantId input w)
      as [-> | (old & Hold & _ & _ & _ & _ & ->)]; [done |].
    split.
    + apply map_Forall_insert_2; [| done]. by apply (Hinv id old).
    + by rewrite lookup_insert_eq, Hold.
  - intros id tenantId.
    destruct (deleteWebhook_table id tenantId w) as [-> | ->]; [done |].
    by apply map_Forall_delete.
Qed.

(** X7: when zod accepts only strings that [new URL] accepts, the two
    writing routes keep every stored url parseable. *)
Theorem routes_keep_urls_parseable (w : World) :
  (forall s, z_string_url s = true -> URL_parses s = true) ->
  urls_parse w ->
  (forall now id tenantId body, urls_parse (patch_webhook now id tenantId body w).2)
  /\ (forall env tenantId userId body,
        urls_parse (post_webhooks env tenantId userId body w).2).
Proof.
  unfold urls_parse. intros Hzod Hinv. split.
  - intros now id tenantId body. unfold patch_webhook.
    destruct (updateWebhookSchema body) eqn:Hschema; [| done].
    destruct (updateWebhook_table now id tenantId body w)
      as [-> | (old & Hold & _ & _ & _ & _ & ->)]; [done |].
    apply map_Forall_insert_2; [| done].
    unfold apply_data; simpl. unfold updateWebhookSchema in Hschema.
    destruct (ui_url body) as [u |]; simpl.
    + apply Hzod. by apply andb_prop in Hschema as [? _].
    + by apply (Hinv id old).
  - intros env tenantId userId body. unfold post_webhooks.
    destruct (createWebhookSchema body); [| done].
    unfold bind.
    destruct (createWebhook_table env tenantId userId body w) as [Hsame | (_ & Hurl & Hnew)].
    + destruct (createWebhook env tenantId userId body w) as [[webhook | thrown] w'];
        simpl in *; by rewrite Hsame.
    + destruct (createWebhook env tenantId userId body w) as [[webhook | thrown] w'];
        simpl in *; rewrite Hnew; by apply map_Forall_insert_2.
Qed.

End InvariantFacts.

(** ** Round trips through the registry *)

Section RoundTripFacts.
Context `{Runtime}.

(** X8: a subscription that was just created is what its tenant gets back
    for its id, and is not found by any other tenant; it is active, carries
    the url and events of the input, and every other id answers as before. *)
Theorem created_subscription_is_retrievable (env : CreateEnv) (tenantId userId : string)
    (input : CreateWebhookInput) (w w' : World) webhook :
  createWebhook env tenantId userId input w = (Return webhook, w') ->
  getWebhook webhook.1 tenantId w' = (Return webhook, w')
  /\ (forall other, other <> tenantId ->
        getWebhook webhook.1 other w' = (Throw not_found, w'))
  /\ (forall id caller, id <> webhook.1 ->
        (getWebhook id caller w').1 = (getWebhook id caller w).1)
  /\ sub_isActive webhook.2 = true
  /\ sub_url webhook.2 = ci_url input
  /\ sub_events webhook.2 = ci_events input
  /\ sub_createdBy webhook.2 = userId
  /\ webhookDelivery w' = webhookDelivery w
  /\ webhookQueue_jobs w' = webhookQueue_jobs w.
Proof.
  intros Hrun. apply createWebhook_returns in Hrun as (-> & Hfresh & -> & _ & _).
  cbn [fst snd]. split_and!; try done.
  - rewrite getWebhook_eq. simpl. rewrite lookup_insert_eq. by rewrite decide_True.
  - intros other Hother. rewrite getWebhook_eq. simpl. rewrite lookup_insert_eq.
    by rewrite decide_False.
  - intros id caller Hid. rewrite !getWebhook_eq. simpl.
    rewrite lookup_insert_ne by done.
    destruct (webhookSubscription w !! id) as [row |]; [| done].
    by destruct (decide (sub_tenantId row = caller)).
Qed.

(** X9: after a deletion that returned, the subscription is not found by
    anyone, a second deletion throws NotFound, the table is one row shorter,
    and every other id answers as before. *)
Theorem deleted_subscription_is_gone (id tenantId : string) (w w' : World) :
  deleteWebhook id tenantId w = (Return tt, w') ->
  (forall caller, getWebhook id caller w' = (Throw not_found, w'))
  /\ deleteWebhook id tenantId w' = (Throw not_found, w')
  /\ S (size (webhookSubscription w')) = size (webhookSubscription w)
  /\ (forall other caller, other <> id ->
        (getWebhook other caller w').1 = (getWebhook other caller w).1).
Proof.
  rewrite deleteWebhook_eq.
  destruct (webhookSubscription w !! id) as [row |] eqn:Hrow; [| done].
  destruct (decide (sub_tenantId row = tenantId)); [| done].
  intros [= <-]. split_and!.
  - intros caller. rewrite getWebhook_eq. simpl. by rewrite lookup_delete_eq.
  - rewrite deleteWebhook_eq. simpl. by rewrite lookup_delete_eq.
  - simpl. rewrite <- (insert_delete_id _ _ _ Hrow) at 2.
    symmetry. apply map_size_insert_None, lookup_delete_eq.
  - intros other caller Hother. rewrite !getWebhook_eq. simpl.
    rewrite lookup_delete_ne by done.
    destruct (webhookSubscription w !! other) as [row' |]; [| done].
    by destruct (decide (sub_tenantId row' = caller)).
Qed.


End RoundTripFacts.

(** ** The worker and the log *)

Section LogFacts.
Context `{Runtime}.






End LogFacts.

(** ** From the dispatcher to the subscriber *)

Section EndToEndFacts.
Context `{Runtime}.

(** Where a job added by a dispatch comes from. *)
Lemma dispatched_job_origin (eventData : WebhookEvent) (w : World) (job : Job) :
  job ∈ jobs_added w (triggerWebhooks eventData w).2 ->
  exists id row,
    job = new_job ("webhook-" +:+ we_event eventData)
            {| webhookId := id; event := we_event eventData; url := sub_url row;
               secret := sub_secret row; payload := we_payload eventData |}
    /\ webhookSubscription w !! id = Some row
    /\ sub_tenantId row = we_tenantId eventData
    /\ sub_isActive row = true
    /\ we_event eventData ∈ sub_events row.
Proof.
  unfold jobs_added. rewrite triggerWebhooks_eq. cbv zeta.
  destruct (length _ =? 0)%nat.
  - simpl. rewrite drop_all. by intros ?%not_elem_of_nil.
  - simpl. rewrite drop_app_length.
    intros ([id row] & -> & Hin)%list_elem_of_fmap.
    apply list_elem_of_filter in Hin as [(Hten & Hact & Hev) Hin].
    apply elem_of_map_to_list in Hin. simpl in *.
    by exists id, row.
Qed.

(** X13: every job a dispatch adds is for a subscription of the tenant that
    is active and has the event; it starts with no attempt made and the
    queue's default options; and what the worker sends for it goes to that
    subscription's url, names the event, carries the payload of the dispatch
    and passes the subscriber's check under that subscription's secret. *)
Theorem dispatched_jobs_reach_their_subscribers (eventData : WebhookEvent) (w : World)
    (job : Job) :
  job ∈ jobs_added w (triggerWebhooks eventData w).2 ->
  exists row,
    webhookSubscription w !! webhookId (job_data job) = Some row
    /\ sub_tenantId row = we_tenantId eventData
    /\ sub_isActive row = true
    /\ we_event eventData ∈ sub_events row
    /\ attemptsMade job = 0
    /\ job_opts job = webhookQueue_defaultJobOptions
    /\ forall env,
         req_url (sent env job) = sub_url row
         /\ req_body (sent env job) = JSON_stringify (we_payload eventData)
         /\ header "X-Webhook-Event" (sent env job) = Some (we_event eventData)
         /\ subscriber_accepts (sub_secret row) (sent env job) = true.
Proof.
  intros (id & row & -> & Hrow & Hten & Hact & Hev)%dispatched_job_origin.
  exists row. split_and!; try done.
  intros env. split_and!; try done.
  apply (subscriber_accepts_sent env
           (new_job ("webhook-" +:+ we_event eventData)
              {| webhookId := id; event := we_event eventData; url := sub_url row;
                 secret := sub_secret row; payload := we_payload eventData |})).
Qed.

(** X14: in the world a deletion leaves, or an update that switches the
    subscription off, a dispatch of any event adds no job for that
    subscription. *)
Theorem paused_or_deleted_gets_no_job (id tenantId : string) (before w : World)
    (eventData : WebhookEvent) :
  deleteWebhook id tenantId before = (Return tt, w)
  \/ (exists now input webhook,
        ui_isActive input = Some false
        /\ updateWebhook now id tenantId input before = (Return webhook, w)) ->
  Forall (fun job => webhookId (job_data job) <> id)
    (jobs_added w (triggerWebhooks eventData w).2).
Proof.
  intros Hop. apply Forall_forall. intros job Hjob Hid.
  apply dispatched_job_origin in Hjob as (id' & row & -> & Hrow & _ & Hact & _).
  simpl in Hid. subst id'.
  destruct Hop as [Hdel | (now & input & webhook & Hoff & Hupd)].
  - rewrite deleteWebhook_eq in Hdel.
    destruct (webhookSubscription before !! id) as [old |]; [| done].
    destruct (decide (sub_tenantId old = tenantId)); [| done].
    injection Hdel as <-. simpl in Hrow. by rewrite lookup_delete_eq in Hrow.
  - rewrite updateWebhook_eq in Hupd.
    destruct (webhookSubscription before !! id) as [old |]; [| done].
    destruct (decide (sub_tenantId old = tenantId)); [| done].
    destruct (url_refused input); [done |].
    destruct (events_refused input); [done |].
    injection Hupd as <- <-. simpl in Hrow. rewrite lookup_insert_eq in Hrow.
    injection Hrow as <-. unfold apply_data in Hact; simpl in Hact.
    rewrite Hoff in Hact. done.
Qed.

End EndToEndFacts.

(** ** The listing routes *)

Section RouteFacts.
Context `{Runtime}.



End RouteFacts.

(** ** The cleanup worker *)

Section CleanupFacts.
Variables RefreshToken AuditLog : Type.
Variable expiresAt : RefreshToken -> Z.
Variable createdAt : AuditLog -> Z.

Lemma deleteMany_lt_spec {A} (column : A -> Z) (bound : Z) (rows : list A) :
  (forall r, r ∈ (deleteMany_lt column bound rows).1 <-> r ∈ rows /\ bound <= column r)
  /\ (deleteMany_lt column bound rows).1 `sublist_of` rows
  /\ (deleteMany_lt column bound rows).2
     = Z.of_nat (length rows) - Z.of_nat (length (deleteMany_lt column bound rows).1)
  /\ 0 <= (deleteMany_lt column bound rows).2.
Proof.
  unfold deleteMany_lt. cbn [fst snd]. split_and!.
  - intros r. rewrite list_elem_of_filter. split; intros [? ?]; split; try done; lia.
  - apply sublist_filter.
  - pose proof (filter_app_complement (fun r => column r < bound) rows) as Hperm.
    apply Permutation_length in Hperm. rewrite length_app in Hperm. lia.
  - lia.
Qed.

(** Deleting below a bound, then below a later bound, is deleting below the
    later bound. *)
Lemma deleteMany_lt_twice {A} (column : A -> Z) (b1 b2 : Z) (rows : list A) :
  b1 <= b2 ->
  (deleteMany_lt column b2 (deleteMany_lt column b1 rows).1).1
  = (deleteMany_lt column b2 rows).1
  /\ (deleteMany_lt column b1 rows).2
     + (deleteMany_lt column b2 (deleteMany_lt column b1 rows).1).2
     = (deleteMany_lt column b2 rows).2.
Proof.
  intros Hle.
  assert (Hkept : (deleteMany_lt column b2 (deleteMany_lt column b1 rows).1).1
                  = (deleteMany_lt column b2 rows).1).
  { unfold deleteMany_lt. cbn [fst].
    apply list_filter_filter_l. intros r ?. lia. }
  split; [exact Hkept |].
  destruct (deleteMany_lt_spec column b1 rows) as (_ & _ & Hc1 & _).
  destruct (deleteMany_lt_spec column b2 rows) as (_ & _ & Hc2 & _).
  destruct (deleteMany_lt_spec column b2 (deleteMany_lt column b1 rows).1)
    as (_ & _ & Hc12 & _).
  rewrite Hc1, Hc2, Hc12, Hkept. lia.
Qed.

(** X16: a cleanup of expired tokens keeps exactly the tokens that expire at
    [now] or later, in their order, leaves the audit log alone, returns the
    number of tokens it deleted, and deletes nothing when run again at the
    same time. *)
Theorem cleanup_deletes_expired_tokens (now : Z) (s : CleanupStore RefreshToken AuditLog) :
  let run := cleanupProcessor RefreshToken AuditLog expiresAt createdAt in
  let tokens s := refreshToken RefreshToken AuditLog s in
  let r := run now "expired-tokens" s in
  auditLog RefreshToken AuditLog r.2 = auditLog RefreshToken AuditLog s
  /\ (forall t, t ∈ tokens r.2 <-> t ∈ tokens s /\ now <= expiresAt t)
  /\ tokens r.2 `sublist_of` tokens s
  /\ r.1 = CleanupDone "expired-tokens"
             (Z.of_nat (length (tokens s)) - Z.of_nat (length (tokens r.2)))
  /\ run now "expired-tokens" r.2 = (CleanupDone "expired-tokens" 0, r.2).
Proof.
  intros run tokens r. subst run tokens r. unfold cleanupProcessor.
  rewrite !bool_decide_eq_true_2 by done. cbn [fst snd refreshToken auditLog].
  destruct (deleteMany_lt_spec expiresAt now (refreshToken _ _ s))
    as (Hkept & Hsub & Hcount & _).
  split_and!; try done.
  - by rewrite Hcount.
  - destruct (deleteMany_lt_twice expiresAt now now (refreshToken _ _ s)) as [Hsame Hsum];
      [lia |].
    rewrite Hsame. f_equal. f_equal. lia.
Qed.

(** X17: a cleanup of old audit logs keeps exactly the rows created within
    the last 90 days (7 776 000 000 ms), boundary included, leaves the tokens
    alone and returns the number of rows it deleted. *)
Theorem cleanup_deletes_old_audit_logs (now : Z) (s : CleanupStore RefreshToken AuditLog) :
  let run := cleanupProcessor RefreshToken AuditLog expiresAt createdAt in
  let logs s := auditLog RefreshToken AuditLog s in
  let r := run now "old-audit-logs" s in
  refreshToken RefreshToken AuditLog r.2 = refreshToken RefreshToken AuditLog s
  /\ (forall l, l ∈ logs r.2 <-> l ∈ logs s /\ now - 7776000000 <= createdAt l)
  /\ logs r.2 `sublist_of` logs s
  /\ r.1 = CleanupDone "old-audit-logs"
             (Z.of_nat (length (logs s)) - Z.of_nat (length (logs r.2))).
Proof.
  intros run logs r. subst run logs r. unfold cleanupProcessor.
  rewrite (bool_decide_eq_false_2 ("old-audit-logs" = "expired-tokens")) by done.
  rewrite (bool_decide_eq_false_2 ("old-audit-logs" = "expired-sessions")) by done.
  rewrite bool_decide_eq_true_2 by done. cbn [fst snd refreshToken auditLog].
  destruct (deleteMany_lt_spec createdAt (now - ninety_days) (auditLog _ _ s))
    as (Hkept & Hsub & Hcount & _).
  split_and!; try done. by rewrite Hcount.
Qed.

(** X18: two cleanups of expired tokens, the second not earlier than the
    first, leave the store that one cleanup at the later time leaves, and
    their counts add up to its count. *)
Theorem cleanups_compose (now later : Z) (s : CleanupStore RefreshToken AuditLog) :
  now <= later ->
  let run := cleanupProcessor RefreshToken AuditLog expiresAt createdAt in
  exists first second once,
    (run now "expired-tokens" s).1 = CleanupDone "expired-tokens" first
    /\ (run later "expired-tokens" (run now "expired-tokens" s).2).1
       = CleanupDone "expired-tokens" second
    /\ (run later "expired-tokens" s).1 = CleanupDone "expired-tokens" once
    /\ first + second = once
    /\ (run later "expired-tokens" (run now "expired-tokens" s).2).2
       = (run later "expired-tokens" s).2.
Proof.
  intros Hle run. subst run. unfold cleanupProcessor.
  rewrite !bool_decide_eq_true_2 by done. cbn [fst snd refreshToken auditLog].
  destruct (deleteMany_lt_twice expiresAt now later (refreshToken _ _ s) Hle)
    as [Hsame Hsum].
  do 3 eexists. split_and!; try reflexivity; [exact Hsum | by rewrite Hsame].
Qed.

(** X19: whatever its type, a cleanup job only ever removes rows; it touches
    the tokens only for expired-tokens and the audit log only for
    old-audit-logs, and it returns nothing exactly when the type is none of
    the three it knows. *)
Theorem cleanup_only_removes (now : Z) (type : string)
    (s : CleanupStore RefreshToken AuditLog) :
  let r := cleanupProcessor RefreshToken AuditLog expiresAt createdAt now type s in
  refreshToken _ _ r.2 `sublist_of` refreshToken _ _ s
  /\ auditLog _ _ r.2 `sublist_of` auditLog _ _ s
  /\ (type <> "expired-tokens" -> refreshToken _ _ r.2 = refreshToken _ _ s)
  /\ (type <> "old-audit-logs" -> auditLog _ _ r.2 = auditLog _ _ s)
  /\ (r.1 = CleanupUndefined
      <-> type <> "expired-tokens" /\ type <> "expired-sessions"
          /\ type <> "old-audit-logs")
  /\ (type = "expired-sessions" -> r = (CleanupDone type 0, s)).
Proof.
  intros r. subst r. unfold cleanupProcessor.
  destruct (bool_decide (type = "expired-tokens")) eqn:Htokens.
  { apply bool_decide_eq_true in Htokens as ->. cbn [fst snd refreshToken auditLog].
    split_and!; try done; [apply sublist_filter | ].
    split; [done | by intros (? & _)]. }
  apply bool_decide_eq_false in Htokens.
  destruct (bool_decide (type = "expired-sessions")) eqn:Hsessions.
  { apply bool_decide_eq_true in Hsessions as ->. cbn [fst snd].
    split_and!; try done. split; [done | by intros (_ & ? & _)]. }
  apply bool_decide_eq_false in Hsessions.
  destruct (bool_decide (type = "old-audit-logs")) eqn:Hlogs.
  { apply bool_decide_eq_true in Hlogs as ->. cbn [fst snd refreshToken auditLog].
    split_and!; try done; [apply sublist_filter | ].
    split; [done | by intros (_ & _ & ?)]. }
  apply bool_decide_eq_false in Hlogs. cbn [fst snd].
  split_and!; try done.
Qed.

End CleanupFacts.

(** ** The further properties on the sample world *)

Module Checks.
Import Sample Fixtures.

Lemma listings_are_newest_first_at_sample :
  (forall webhooks total,
     (listWebhooks "acme" 1 50 world).1 = Return (webhooks, total) ->
     StronglySorted newer_subscription_first webhooks)
  /\ (forall rows total,
        (getWebhookDeliveries "wh1" "acme" 1 50 world).1 = Return (rows, total) ->
        StronglySorted newer_first rows).
Proof. apply (listings_are_newest_first "acme" "wh1" 1 50 world). lia. Defined.


Lemma paginatedResponse_totalPages_at_sample :
  exists meta n,
    res_meta (paginatedResponse ["a"; "b"; "c"] 7 1 3) = Some meta
    /\ meta_page meta = 1 /\ meta_limit meta = 3 /\ meta_total meta = 7
    /\ meta_totalPages meta = Some n
    /\ 0 <= n
    /\ 7 <= n * 3
    /\ (n - 1) * 3 < 7
    /\ (n = 0 <-> 7 = 0).
Proof. apply (paginatedResponse_totalPages ["a"; "b"; "c"] 7 1 3); lia. Defined.

Lemma events_stay_nonempty_at_sample :
  (forall env tenantId userId input,
     events_nonempty (createWebhook env tenantId userId input world).2)
  /\ (forall now id tenantId input,
        events_nonempty (updateWebhook now id tenantId input world).2)
  /\ (forall id tenantId, events_nonempty (deleteWebhook id tenantId world).2).
Proof.
  apply (events_stay_nonempty world).
  unfold events_nonempty. apply (bool_decide_unpack _). vm_compute. reflexivity.
Defined.

Lemma secrets_stay_well_formed_at_sample :
  (forall env tenantId userId input,
     secrets_well_formed (createWebhook env tenantId userId input fresh_world).2)
  /\ (forall now id tenantId input,
        secrets_well_formed (updateWebhook now id tenantId input fresh_world).2
        /\ sub_secret
             <$> webhookSubscription (updateWebhook now id tenantId input fresh_world).2 !! id
           = sub_secret <$> webhookSubscription fresh_world !! id)
  /\ (forall id tenantId, secrets_well_formed (deleteWebhook id tenantId fresh_world).2).
Proof.
  apply (secrets_stay_well_formed fresh_world).
  unfold secrets_well_formed. apply (bool_decide_unpack _). vm_compute. reflexivity.
Defined.

Lemma routes_keep_urls_parseable_at_sample :
  (forall now id tenantId body, urls_parse (patch_webhook now id tenantId body world).2)
  /\ (forall env tenantId userId body,
        urls_parse (post_webhooks env tenantId userId body world).2).
Proof.
  apply (routes_keep_urls_parseable world).
  - intros s Hs. exact Hs.
  - unfold urls_parse. apply (bool_decide_unpack _). vm_compute. reflexivity.
Defined.

Lemma created_subscription_is_retrievable_at_sample :
  getWebhook globex_created.1 "globex" after_create = (Return globex_created, after_create)
  /\ (forall other, other <> "globex" ->
        getWebhook globex_created.1 other after_create = (Throw not_found, after_create))
  /\ (forall id caller, id <> globex_created.1 ->
        (getWebhook id caller after_create).1 = (getWebhook id caller world).1)
  /\ sub_isActive globex_created.2 = true
  /\ sub_url globex_created.2 = ci_url good_input
  /\ sub_events globex_created.2 = ci_events good_input
  /\ sub_createdBy globex_created.2 = "u9"
  /\ webhookDelivery after_create = webhookDelivery world
  /\ webhookQueue_jobs after_create = webhookQueue_jobs world.
Proof.
  apply (created_subscription_is_retrievable create_env "globex" "u9" good_input world).
  vm_compute. reflexivity.
Defined.

Lemma deleted_subscription_is_gone_at_sample :
  (forall caller, getWebhook "wh1" caller after_delete = (Throw not_found, after_delete))
  /\ deleteWebhook "wh1" "acme" after_delete = (Throw not_found, after_delete)
  /\ S (size (webhookSubscription after_delete)) = size (webhookSubscription world)
  /\ (forall other caller, other <> "wh1" ->
        (getWebhook other caller after_delete).1 = (getWebhook other caller world).1).
Proof.
  apply (deleted_subscription_is_gone "wh1" "acme" world). vm_compute. reflexivity.
Defined.



Lemma updateWebhook_refuses_at_sample :
  exists message,
    updateWebhook 5000 "wh1" "acme" bad_url world
    = (Throw (AppError ValidationError message), world).
Proof.
  apply (updateWebhook_refuses 5000 "wh1" "acme" bad_url world).
  - exists acme_hook. split; reflexivity.
  - left. exists "not a url". split_and!; [reflexivity | discriminate | reflexivity].
Defined.


Lemma dispatched_jobs_reach_their_subscribers_at_sample :
  exists row,
    webhookSubscription world !! webhookId (job_data dispatched_job) = Some row
    /\ sub_tenantId row = we_tenantId user_created
    /\ sub_isActive row = true
    /\ we_event user_created ∈ sub_events row
    /\ attemptsMade dispatched_job = 0
    /\ job_opts dispatched_job = webhookQueue_defaultJobOptions
    /\ forall env,
         req_url (sent env dispatched_job) = sub_url row
         /\ req_body (sent env dispatched_job) = JSON_stringify (we_payload user_created)
         /\ header "X-Webhook-Event" (sent env dispatched_job)
            = Some (we_event user_created)
         /\ subscriber_accepts (sub_secret row) (sent env dispatched_job) = true.
Proof.
  apply (dispatched_jobs_reach_their_subscribers user_created world dispatched_job).
  vm_compute. apply list_elem_of_here.
Defined.

Lemma paused_or_deleted_gets_no_job_at_sample :
  Forall (fun j : Job => webhookId (job_data j) <> "wh1")
    (jobs_added wh1_paused (triggerWebhooks user_created wh1_paused).2)
  /\ Forall (fun j : Job => webhookId (job_data j) <> "wh1")
       (jobs_added wh1_deleted (triggerWebhooks user_created wh1_deleted).2).
Proof.
  split.
  - apply (paused_or_deleted_gets_no_job "wh1" "acme" both_active wh1_paused user_created).
    right. exists 5000, pause, ("wh1", apply_data pause 5000 acme_hook).
    split; [reflexivity |]. vm_compute. reflexivity.
  - apply (paused_or_deleted_gets_no_job "wh1" "acme" both_active wh1_deleted user_created).
    left. vm_compute. reflexivity.
Defined.

(** In both of these worlds the dispatch does add a job: the one for wh2. *)
Example dispatch_after_pause_or_delete :
  map (fun j : Job => webhookId (job_data j))
    (jobs_added wh1_paused (triggerWebhooks user_created wh1_paused).2) = ["wh2"]
  /\ map (fun j : Job => webhookId (job_data j))
       (jobs_added wh1_deleted (triggerWebhooks user_created wh1_deleted).2) = ["wh2"].
Proof. vm_compute. auto. Qed.

Lemma cleanups_compose_at_sample :
  exists first second once,
    (sweep 100 "expired-tokens" store).1 = CleanupDone "expired-tokens" first
    /\ (sweep 260 "expired-tokens" (sweep 100 "expired-tokens" store).2).1
       = CleanupDone "expired-tokens" second
    /\ (sweep 260 "expired-tokens" store).1 = CleanupDone "expired-tokens" once
    /\ first + second = once
    /\ (sweep 260 "expired-tokens" (sweep 100 "expired-tokens" store).2).2
       = (sweep 260 "expired-tokens" store).2.
Proof.
  apply (cleanups_compose Z Z (fun t => t) (fun l => l) 100 260 store). lia.
Defined.

(** The sample store: the token expiring exactly at the time of the cleanup
    stays, and so does the audit log row that is exactly 90 days old. *)
Example cleanup_boundaries :
  (cleanupProcessor Z Z (fun t => t) (fun l => l) 100 "expired-tokens" store)
  = (CleanupDone "expired-tokens" 1,
     {| refreshToken := [100; 250; 300]; auditLog := auditLog Z Z store |})
  /\ (cleanupProcessor Z Z (fun t => t) (fun l => l) 15552000000 "old-audit-logs" store)
     = (CleanupDone "old-audit-logs" 1,
        {| refreshToken := refreshToken Z Z store;
           auditLog := [7776000000; 7776000500] |})
  /\ (cleanupProcessor Z Z (fun t => t) (fun l => l) 100 "sessions" store)
     = (CleanupUndefined, store).
Proof. vm_compute. auto. Qed.

End Checks.
